(** * Intelligent search: the ranked multi-entity search-and-merge handler

  A shallow embedding of the serverless search function
  (src/unnamed/part_002: [exports.handler] and [calculateRelevance]) and
  the properties its specification states about it.

  Modelling conventions.
  - JavaScript strings are [string]s whose characters are the code units
    0..255 (the Latin-1 range); [toLowerCase], [trim], [startsWith],
    [includes] and [split] are written out on them.
  - JavaScript numbers are exact: scores are rationals ([Q]) and
    [maxResults] is an integer ([Z]); the theorems are about the
    arithmetic the code writes, not about binary64 rounding.
  - The Supabase client is a parameter of the handler. A query resolves to
    a [{ data, error }] pair: the client reports rows and failures alike
    through it, and does not reject.
  - [JSON.parse] and the clock are builtins: an event carries the outcome
    of parsing its body, and the handler takes the timestamp the clock
    gives as an argument.
  - [console.log] and [console.error] are not modelled. *)

From Stdlib Require Import List String Ascii Bool Arith ZArith NArith QArith Lia.
From Stdlib Require Import Sorting.Sorted Sorting.Permutation Qround Lqa.
Import ListNotations.

Local Open Scope string_scope.

(* ------------------------------------------------------------------ *)
(** * JavaScript string primitives used by the handler *)

Module JsString.

(** White space and line terminators removed by [String.prototype.trim],
    among the code units below 256: TAB, LF, VT, FF, CR, SP and NBSP. *)
Definition isWhiteSpace (c : ascii) : bool :=
  let n := N_of_ascii c in
  (((9 <=? n) && (n <=? 13)) || (n =? 32) || (n =? 160))%N.

(** Lower-casing of one code unit: A-Z and the Latin-1 capitals
    U+00C0..U+00DE (U+00D7, the multiplication sign, excepted). *)
Definition lowerChar (c : ascii) : ascii :=
  let n := N_of_ascii c in
  if (((65 <=? n) && (n <=? 90))
      || ((192 <=? n) && (n <=? 222) && negb (n =? 215)))%N
  then ascii_of_N (n + 32) else c.

Fixpoint toLowerCase (s : string) : string :=
  match s with
  | EmptyString => EmptyString
  | String c s' => String (lowerChar c) (toLowerCase s')
  end.

Fixpoint trimStart (s : string) : string :=
  match s with
  | EmptyString => EmptyString
  | String c s' => if isWhiteSpace c then trimStart s' else s
  end.

Fixpoint trimEnd (s : string) : string :=
  match s with
  | EmptyString => EmptyString
  | String c s' =>
      match trimEnd s' with
      | EmptyString => if isWhiteSpace c then EmptyString else String c EmptyString
      | t => String c t
      end
  end.

Definition trim (s : string) : string := trimEnd (trimStart s).

(** [s.startsWith(t)] *)
Fixpoint startsWith (s t : string) {struct t} : bool :=
  match t with
  | EmptyString => true
  | String b t' =>
      match s with
      | EmptyString => false
      | String a s' => Ascii.eqb a b && startsWith s' t'
      end
  end.

(** [s.includes(t)]: [t] starts at some position of [s]. *)
Fixpoint includes (s t : string) : bool :=
  startsWith s t ||
  match s with
  | EmptyString => false
  | String _ s' => includes s' t
  end.

(** Cut [s] at every character satisfying [sep]; the pieces between two
    cuts are kept even when empty, as [String.prototype.split] does. *)
Fixpoint splitBy (sep : ascii -> bool) (s : string) : list string :=
  match s with
  | EmptyString => [EmptyString]
  | String c s' =>
      if sep c then EmptyString :: splitBy sep s'
      else match splitBy sep s' with
           | w :: ws => String c w :: ws
           | [] => [String c EmptyString]
           end
  end.

(** [s.split(sep)] for a one-character separator. *)
Definition split (s : string) (sep : ascii) : list string :=
  splitBy (Ascii.eqb sep) s.

Definition isEmpty (s : string) : bool :=
  match s with EmptyString => true | String _ _ => false end.

(** The white-space separated words of [s]: the non-empty pieces between
    white-space characters. *)
Definition words (s : string) : list string :=
  filter (fun w => negb (isEmpty w)) (splitBy isWhiteSpace s).

(** [s] is a substring of [v]: [v] reads [a ++ s ++ b]. *)
Definition factor (s v : string) : Prop := exists a b, v = a ++ s ++ b.

End JsString.

(* ------------------------------------------------------------------ *)
(** * Relevance scoring *)

Module Relevance.
Import JsString.
Local Open Scope Q_scope.

(** A field handed to [calculateRelevance]: a nullable text column. *)
Definition field := option string.

Definition Qnat (n : nat) : Q := inject_Z (Z.of_nat n).

(** [fields.forEach((field, index) => ...)] threading the state the
    callback mutates. *)
Fixpoint forEach {A St : Type} (callback : St -> A -> nat -> St)
         (l : list A) (index : nat) (st : St) : St :=
  match l with
  | [] => st
  | x :: l' => forEach callback l' (S index) (callback st x index)
  end.

(** The body of the [forEach] callback: [score] is the running total.
    [if (!field) return] leaves it as it is for null, undefined and the
    empty string. *)
Definition visit (term : string) (score : Q) (f : field) (index : nat) : Q :=
  match f with
  | None => score
  | Some text =>
      if isEmpty text then score
      else
        let fieldValue := toLowerCase text in
        let weight := 1 / Qnat (index + 1) in
        if String.eqb fieldValue term then score + 100 * weight
        else if startsWith fieldValue term then score + 80 * weight
        else if includes fieldValue term then score + 60 * weight
        else
          let words := split fieldValue " " in
          let matchingWords :=
            List.length (filter (fun word => includes word term) words) in
          if (0 <? matchingWords)%nat
          then score + (30 * Qnat matchingWords / Qnat (List.length words)) * weight
          else score
  end.

Definition calculateRelevance (searchTerm : string) (fields : list field) : Q :=
  let term := toLowerCase searchTerm in
  forEach (visit term) fields 0%nat 0.

(** ** The scoring rule as the specification words it *)

Definition spec_weight (i : nat) : Q := 1 / Qnat (i + 1).

(** Per-field contribution: null/absent fields give 0; otherwise the
    lower-cased value is compared with the (lower-cased) term. *)
Definition spec_contribution (term : string) (f : field) : Q :=
  match f with
  | None => 0
  | Some text =>
      let v := toLowerCase text in
      if String.eqb v term then 100
      else if startsWith v term then 80
      else if includes v term then 60
      else
        let ws := words v in
        let m := List.length (filter (fun w => includes w term) ws) in
        if (m =? 0)%nat then 0
        else 30 * Qnat m / Qnat (List.length ws)
  end.

Fixpoint spec_sum (term : string) (fields : list field) (i : nat) : Q :=
  match fields with
  | [] => 0
  | f :: fs => spec_weight i * spec_contribution term f + spec_sum term fs (S i)
  end.

Definition spec_relevance (searchTerm : string) (fields : list field) : Q :=
  spec_sum (toLowerCase searchTerm) fields 0%nat.

End Relevance.

(* ------------------------------------------------------------------ *)
(** * The request handler *)

Module Search.
Import JsString Relevance.

(** ** Rows of the three collections, as selected by the handler *)

Record person := {
  person_id : string; person_name : field; person_title : field;
  person_company : field; person_email : field; person_phone : field;
  person_linkedin : field; person_type : field }.

Record company := {
  company_id : string; company_name : field; company_description : field;
  company_city : field; company_state : field; company_sectors : field;
  company_website : field; company_type : field }.

Record project := {
  project_id : string; project_title : field; project_description : field;
  project_location : field; project_type : field; project_status : field;
  project_developer : field; project_architect : field }.

Inductive row :=
| PersonRow (p : person)
| CompanyRow (c : company)
| ProjectRow (p : project).

(** A candidate record: the row spread into a new object ([...item]) with
    [type], [name] (projects only; otherwise the row's own), [description]
    and [relevanceScore] set. *)
Record result := {
  item : row;
  type : string;
  name : field;
  description : string;
  relevanceScore : Q }.

(** [f || d] on a nullable string. *)
Definition orElse (f : field) (d : string) : string :=
  match f with
  | Some s => if isEmpty s then d else s
  | None => d
  end.

Definition personResult (searchTerm : string) (p : person) : result :=
  {| item := PersonRow p;
     type := "person";
     name := person_name p;
     description :=
       orElse (person_title p) "Professional" ++ " at "
       ++ orElse (person_company p) "Unknown Company";
     relevanceScore :=
       calculateRelevance searchTerm
         [person_name p; person_title p; person_company p] |}.

Definition companyResult (searchTerm : string) (c : company) : result :=
  {| item := CompanyRow c;
     type := "company";
     name := company_name c;
     description :=
       orElse (company_description c)
         (orElse (company_sectors c) "Company" ++ " based in "
          ++ orElse (company_city c) "Unknown" ++ ", "
          ++ orElse (company_state c) "");
     relevanceScore :=
       calculateRelevance searchTerm
         [company_name c; company_description c; company_sectors c] |}.

Definition projectResult (searchTerm : string) (p : project) : result :=
  {| item := ProjectRow p;
     type := "project";
     name := project_title p;
     description :=
       orElse (project_description p)
         (orElse (project_type p) "Project" ++ " in "
          ++ orElse (project_location p) "Unknown location");
     relevanceScore :=
       calculateRelevance searchTerm
         [project_title p; project_description p; project_location p] |}.

(** ** The store client *)

(** One query built by [supabase.from(t).select(c).or(f).limit(n)]. *)
Record lookup := {
  table : string;
  columns : string;
  orFilter : string;
  limit : Z }.

(** What a query resolves to: [{ data, error }]. *)
Record reply (A : Type) := {
  data : option (list A);
  error : option string }.
Arguments data {A} _.
Arguments error {A} _.

Record client := {
  people : lookup -> reply person;
  companies : lookup -> reply company;
  projects : lookup -> reply project }.

(** ** Requests *)

(** A JSON value, as far as the handler inspects one. *)
#[warnings="-register-all"] Inductive json :=
| JNull
| JBool (b : bool)
| JNumber (q : Q)
| JString (s : string)
| JArray (l : list json)
| JObject (l : list (string * json)).

(** The three properties read off the parsed body; [None] is
    [undefined] (property absent). [maxResults] is an integer when
    present. *)
Record request := {
  query : option json;
  includeResults : option json;
  maxResults : option Z }.

(** The outcome of [JSON.parse(event.body || '{}')]: a syntax error, the
    literal [null], or a value whose properties can be read. A missing
    or empty [event.body] parses as the empty object, that is
    [Body] with all three properties absent. *)
Inductive parsedBody :=
| Malformed
| NullLiteral
| Body (r : request).

Record event := {
  httpMethod : string;
  body : parsedBody }.

(** ** Responses *)

Record analytics := {
  analytics_totalResults : nat;
  resultsByType_people : nat;
  resultsByType_companies : nat;
  resultsByType_projects : nat;
  analytics_searchTerm : string;
  analytics_timestamp : string }.

(** The object passed to [JSON.stringify] for the response body. *)
Inductive payload :=
| NoContent
| MethodNotAllowed (error : string)
| QueryRequired (error : string) (results : list result)
| SearchCompleted (success : bool) (query : string) (results : list result)
    (analytics : analytics) (totalResults : nat)
| SearchFailed (success : bool) (error : string) (results : list result).

Definition headers : list (string * string) :=
  [ ("Access-Control-Allow-Origin", "*");
    ("Access-Control-Allow-Headers", "Content-Type, Authorization");
    ("Access-Control-Allow-Methods", "GET, POST, PUT, DELETE, OPTIONS");
    ("Content-Type", "application/json") ].

Record response := {
  statusCode : Z;
  responseHeaders : list (string * string);
  responseBody : payload }.

(** ** Exceptions and the trace of issued lookups *)

Inductive exn := SyntaxError | TypeError.

Inductive outcome (A : Type) :=
| Return (a : A)
| Throw (e : exn).
Arguments Return {A} _.
Arguments Throw {A} _.

(** A computation that may throw and that records the queries it sends
    to the store, in order. *)
Definition M (A : Type) : Type := list lookup -> outcome A * list lookup.

Definition ret {A} (a : A) : M A := fun tr => (Return a, tr).
Definition throw {A} (e : exn) : M A := fun tr => (Throw e, tr).
Definition bind {A B} (m : M A) (k : A -> M B) : M B :=
  fun tr =>
    match m tr with
    | (Return a, tr') => k a tr'
    | (Throw e, tr') => (Throw e, tr')
    end.
Definition tryCatch {A} (m : M A) (handle : exn -> M A) : M A :=
  fun tr =>
    match m tr with
    | (Return a, tr') => (Return a, tr')
    | (Throw e, tr') => handle e tr'
    end.
(** Sending a query: it is recorded, and the client's reply comes back. *)
Definition runLookup {A} (store : lookup -> reply A) (q : lookup) : M (reply A) :=
  fun tr => (Return (store q), (tr ++ [q])%list).

Notation "x <- m ;; k" := (bind m (fun x => k))
  (at level 61, m at next level, right associativity).

(** ** Builtins *)

(** [!v] on an optional JSON value. *)
Definition jsNot (v : option json) : bool :=
  match v with
  | None => true
  | Some JNull => true
  | Some (JBool b) => negb b
  | Some (JNumber q) => Qeq_bool q 0
  | Some (JString s) => isEmpty s
  | Some (JArray _) => false
  | Some (JObject _) => false
  end.

(** [v.trim()]: only strings have the method; calling it on anything
    else throws. *)
Definition callTrim (v : option json) : M string :=
  match v with
  | Some (JString s) => ret (trim s)
  | _ => throw TypeError
  end.

(** [JSON.parse] followed by the destructuring of the parsed value. *)
Definition parseAndDestructure (b : parsedBody) : M request :=
  match b with
  | Malformed => throw SyntaxError
  | NullLiteral => throw TypeError
  | Body r => ret r
  end.

(** [Math.ceil(x)] *)
Definition ceil (x : Q) : Z := Qceiling x.

(** [Array.prototype.sort(compareFn)] on a consistent comparator: the
    stable sort, written as insertion from the right. [compareFn a b > 0]
    puts [a] after [b]. *)
Fixpoint insert {A} (compareFn : A -> A -> Q) (x : A) (l : list A) : list A :=
  match l with
  | [] => [x]
  | y :: l' =>
      if Qle_bool (compareFn x y) 0 then x :: y :: l'
      else y :: insert compareFn x l'
  end.

Fixpoint sort {A} (compareFn : A -> A -> Q) (l : list A) : list A :=
  match l with
  | [] => []
  | x :: l' => insert compareFn x (sort compareFn l')
  end.

(** [l.slice(0, e)]: a negative [e] counts from the end. *)
Definition slice0 {A} (l : list A) (e : Z) : list A :=
  let len := Z.of_nat (List.length l) in
  let final := if (e <? 0)%Z then Z.max (len + e) 0 else Z.min e len in
  firstn (Z.to_nat final) l.

(** [.then(({ data, error }) => error ? [] : (data || []).map(f))] *)
Definition onReply {A} (f : A -> result) (r : reply A) : list result :=
  match error r with
  | Some _ => []
  | None =>
      match data r with
      | Some rows => map f rows
      | None => []
      end
  end.

(** ** The three queries *)

Definition ilike (column searchTerm : string) : string :=
  column ++ ".ilike.%" ++ searchTerm ++ "%".

Definition perCategoryLimit (maxResults : Z) : Z :=
  ceil (inject_Z maxResults / 3).

Definition peopleLookup (searchTerm : string) (maxResults : Z) : lookup :=
  {| table := "people";
     columns := "id, name, title, company, email, phone, linkedin, type";
     orFilter :=
       ilike "name" searchTerm ++ "," ++ ilike "title" searchTerm ++ ","
       ++ ilike "company" searchTerm ++ "," ++ ilike "email" searchTerm;
     limit := perCategoryLimit maxResults |}.

Definition companiesLookup (searchTerm : string) (maxResults : Z) : lookup :=
  {| table := "companies";
     columns := "id, name, description, city, state, sectors, website, type";
     orFilter :=
       ilike "name" searchTerm ++ "," ++ ilike "description" searchTerm ++ ","
       ++ ilike "sectors" searchTerm ++ "," ++ ilike "city" searchTerm;
     limit := perCategoryLimit maxResults |}.

Definition projectsLookup (searchTerm : string) (maxResults : Z) : lookup :=
  {| table := "projects";
     columns := "id, title, description, location, type, status, developer, architect";
     orFilter :=
       ilike "title" searchTerm ++ "," ++ ilike "description" searchTerm ++ ","
       ++ ilike "location" searchTerm ++ "," ++ ilike "developer" searchTerm ++ ","
       ++ ilike "architect" searchTerm;
     limit := perCategoryLimit maxResults |}.

(** ** The handler *)

Definition respond (status : Z) (p : payload) : response :=
  {| statusCode := status; responseHeaders := headers; responseBody := p |}.

Definition byScoreDescending (a b : result) : Q :=
  relevanceScore b - relevanceScore a.

(** [const { query, includeResults = true, maxResults = 10 } = body]:
    a default applies when the property is absent. *)
Definition includeResultsOf (r : request) : bool :=
  match includeResults r with
  | None => true
  | Some v => negb (jsNot (Some v))
  end.

Definition maxResultsOf (r : request) : Z :=
  match maxResults r with
  | None => 10%Z
  | Some n => n
  end.

(** The body of the [try] block. *)
Definition search (supabase : client) (timestamp : string) (ev : event)
  : M response :=
  r <- parseAndDestructure (body ev) ;;
  let includeResults := includeResultsOf r in
  let maxResults := maxResultsOf r in
  blank <- (if jsNot (query r) then ret true
            else t <- callTrim (query r) ;; ret (String.length t =? 0)%nat) ;;
  if blank : bool then
    ret (respond 400 (QueryRequired "Query parameter is required" []))
  else
    searchTerm <- callTrim (query r) ;;
    peopleReply <- runLookup (people supabase) (peopleLookup searchTerm maxResults) ;;
    companiesReply <-
      runLookup (companies supabase) (companiesLookup searchTerm maxResults) ;;
    projectsReply <-
      runLookup (projects supabase) (projectsLookup searchTerm maxResults) ;;
    let searchResults :=
      [ onReply (personResult searchTerm) peopleReply;
        onReply (companyResult searchTerm) companiesReply;
        onReply (projectResult searchTerm) projectsReply ] in
    let allResults := List.concat searchResults in
    let sortedResults := slice0 (sort byScoreDescending allResults) maxResults in
    let analytics :=
      {| analytics_totalResults := List.length allResults;
         resultsByType_people := List.length (List.nth 0 searchResults []);
         resultsByType_companies := List.length (List.nth 1 searchResults []);
         resultsByType_projects := List.length (List.nth 2 searchResults []);
         analytics_searchTerm := searchTerm;
         analytics_timestamp := timestamp |} in
    ret (respond 200
           (SearchCompleted true searchTerm
              (if includeResults : bool then sortedResults else [])
              analytics (List.length allResults))).

(** What one invocation does: the response and the queries sent. *)
Record run := {
  sent : response;
  issued : list lookup }.

Definition handler (supabase : client) (timestamp : string) (ev : event) : run :=
  if String.eqb (httpMethod ev) "OPTIONS" then
    {| sent := respond 200 NoContent; issued := [] |}
  else if negb (String.eqb (httpMethod ev) "POST") then
    {| sent := respond 405 (MethodNotAllowed "Method not allowed"); issued := [] |}
  else
    let guarded :=
      tryCatch (search supabase timestamp ev)
        (fun _ =>
           ret (respond 500
                  (SearchFailed false "Internal server error during search" []))) in
    match guarded [] with
    | (Return resp, tr) => {| sent := resp; issued := tr |}
    | (Throw _, tr) =>
        {| sent := respond 500
                     (SearchFailed false "Internal server error during search" []);
           issued := tr |}
    end.

(** ** Observations used to state the properties *)

Definition resultsOf (p : payload) : list result :=
  match p with
  | QueryRequired _ rs => rs
  | SearchCompleted _ _ rs _ _ => rs
  | SearchFailed _ _ rs => rs
  | NoContent | MethodNotAllowed _ => []
  end.

(** The same payload with another [results] array. *)
Definition withResults (rs : list result) (p : payload) : payload :=
  match p with
  | QueryRequired e _ => QueryRequired e rs
  | SearchCompleted ok q _ a n => SearchCompleted ok q rs a n
  | SearchFailed ok e _ => SearchFailed ok e rs
  | NoContent => NoContent
  | MethodNotAllowed e => MethodNotAllowed e
  end.

Definition totalResultsOf (p : payload) : option nat :=
  match p with
  | SearchCompleted _ _ _ _ n => Some n
  | _ => None
  end.

Definition analyticsOf (p : payload) : option analytics :=
  match p with
  | SearchCompleted _ _ _ a _ => Some a
  | _ => None
  end.

(** The fields of a row handed to [calculateRelevance], in order. *)
Definition scoredFields (i : row) : list field :=
  match i with
  | PersonRow p => [person_name p; person_title p; person_company p]
  | CompanyRow c => [company_name c; company_description c; company_sectors c]
  | ProjectRow p => [project_title p; project_description p; project_location p]
  end.

Inductive category := People | Companies | Projects.


Definition countOf (a : analytics) (c : category) : nat :=
  match c with
  | People => resultsByType_people a
  | Companies => resultsByType_companies a
  | Projects => resultsByType_projects a
  end.

(** [data || []] *)
Definition rowsOf {A} (r : reply A) : list A :=
  match data r with
  | Some rows => rows
  | None => []
  end.

Definition failed {A} (r : reply A) : bool :=
  match error r with
  | Some _ => true
  | None => false
  end.

(** Did the lookup of category [c] report an error, for this term and
    limit? *)
Definition lookupFailed (supabase : client) (searchTerm : string)
           (maxResults : Z) (c : category) : bool :=
  match c with
  | People => failed (people supabase (peopleLookup searchTerm maxResults))
  | Companies => failed (companies supabase (companiesLookup searchTerm maxResults))
  | Projects => failed (projects supabase (projectsLookup searchTerm maxResults))
  end.

(** The rows the store returned for category [c], as candidate records. *)
Definition returnedBy (supabase : client) (searchTerm : string)
           (maxResults : Z) (c : category) : list result :=
  match c with
  | People =>
      map (personResult searchTerm)
        (rowsOf (people supabase (peopleLookup searchTerm maxResults)))
  | Companies =>
      map (companyResult searchTerm)
        (rowsOf (companies supabase (companiesLookup searchTerm maxResults)))
  | Projects =>
      map (projectResult searchTerm)
        (rowsOf (projects supabase (projectsLookup searchTerm maxResults)))
  end.

(** The candidate records of category [c] after the [.then] callback. *)
Definition candidatesOf (supabase : client) (searchTerm : string)
           (maxResults : Z) (c : category) : list result :=
  if lookupFailed supabase searchTerm maxResults c then []
  else returnedBy supabase searchTerm maxResults c.

(** [allResults]: the three categories, in the order of the promises. *)
Definition merged (supabase : client) (searchTerm : string) (maxResults : Z)
  : list result :=
  flat_map (candidatesOf supabase searchTerm maxResults) [People; Companies; Projects].


(** The invocation that answers a search for [searchTerm]: the three
    queries sent, and the 200 response built from the candidates. *)
Definition searchRun (supabase : client) (timestamp : string) (r : request)
           (searchTerm : string) : run :=
  let maxResults := maxResultsOf r in
  let allResults := merged supabase searchTerm maxResults in
  {| sent :=
       respond 200
         (SearchCompleted true searchTerm
            (if includeResultsOf r
             then slice0 (sort byScoreDescending allResults) maxResults
             else [])
            {| analytics_totalResults := List.length allResults;
               resultsByType_people :=
                 List.length (candidatesOf supabase searchTerm maxResults People);
               resultsByType_companies :=
                 List.length (candidatesOf supabase searchTerm maxResults Companies);
               resultsByType_projects :=
                 List.length (candidatesOf supabase searchTerm maxResults Projects);
               analytics_searchTerm := searchTerm;
               analytics_timestamp := timestamp |}
            (List.length allResults));
     issued :=
       [ peopleLookup searchTerm maxResults;
         companiesLookup searchTerm maxResults;
         projectsLookup searchTerm maxResults ] |}.

(** The invocations that send no query. *)
Definition rejected (status : Z) (p : payload) : run :=
  {| sent := respond status p; issued := [] |}.

Definition queryRequired : run :=
  rejected 400 (QueryRequired "Query parameter is required" []).

Definition internalError : run :=
  rejected 500 (SearchFailed false "Internal server error during search" []).

(** Scores do not increase along the list. *)
Definition descending (rs : list result) : Prop :=
  StronglySorted (fun a b => (relevanceScore b <= relevanceScore a)%Q) rs.

(** The request [r] with its [includeResults] property replaced. *)
Definition withIncludeResults (v : option json) (r : request) : request :=
  {| query := query r; includeResults := v; maxResults := maxResults r |}.

(** The response [resp] with an empty [results] array. *)
Definition emptied (resp : response) : response :=
  {| statusCode := statusCode resp;
     responseHeaders := responseHeaders resp;
     responseBody := withResults [] (responseBody resp) |}.

(** ** Sample data *)

Definition ada : person :=
  {| person_id := "p1"; person_name := Some "Ada Acme"; person_title := Some "Architect";
     person_company := Some "Acme Corp"; person_email := None; person_phone := None;
     person_linkedin := None; person_type := None |}.

Definition bob : person :=
  {| person_id := "p2"; person_name := Some "Bob Builder"; person_title := None;
     person_company := Some "ACME"; person_email := None; person_phone := None;
     person_linkedin := None; person_type := None |}.

Definition acme : company :=
  {| company_id := "c1"; company_name := Some "Acme"; company_description := None;
     company_city := Some "Miami"; company_state := Some "FL";
     company_sectors := Some "Construction"; company_website := None;
     company_type := None |}.

Definition tower : project :=
  {| project_id := "j1"; project_title := Some "Harbour Tower";
     project_description := None; project_location := Some "Miami";
     project_type := None; project_status := None;
     project_developer := Some "Acme Corp"; project_architect := None |}.

(** A store that answers every query with the same rows, whatever the
    limit asked for. *)
Definition sampleStore : client :=
  {| people := fun _ => {| data := Some [ada; bob]; error := None |};
     companies := fun _ => {| data := Some [acme]; error := None |};
     projects := fun _ => {| data := Some [tower]; error := None |} |}.

(** The same store with the companies lookup failing. *)
Definition companiesDown : client :=
  {| people := people sampleStore;
     companies := fun _ => {| data := None; error := Some "connection refused" |};
     projects := projects sampleStore |}.

Definition post (r : request) : event :=
  {| httpMethod := "POST"; body := Body r |}.

Definition searchFor (q : string) (includeResults : option json)
           (maxResults : option Z) : request :=
  {| query := Some (JString q);
     includeResults := includeResults;
     maxResults := maxResults |}.

End Search.

(* ------------------------------------------------------------------ *)
(** * Views on scoring and on requests, for the properties below *)

Module Scoring.
Import JsString Relevance.
Local Open Scope Q_scope.

(** How well a field matches the (lower-cased) term, as the branches of the
    scoring loop test it and leaving the word-by-word branch out: 100 for
    an equal value, 80 for a prefix match, 60 for a substring match, 0
    otherwise, and 0 for a null or empty field. *)
Definition matchLevel (term : string) (f : field) : Q :=
  match f with
  | None => 0
  | Some text =>
      if isEmpty text then 0
      else
        let fieldValue := toLowerCase text in
        if String.eqb fieldValue term then 100
        else if startsWith fieldValue term then 80
        else if includes fieldValue term then 60
        else 0
  end.

(** The match levels of [fields], each divided by its position counted
    from [index + 1]. *)
Fixpoint weightedLevels (term : string) (fields : list field) (index : nat) : Q :=
  match fields with
  | [] => 0
  | f :: fs =>
      matchLevel term f * (1 / Qnat (index + 1)) + weightedLevels term fs (S index)
  end.

(** [1/(index+1) + ... + 1/(index+n)] *)
Fixpoint harmonicFrom (index n : nat) : Q :=
  match n with
  | O => 0
  | S n' => 1 / Qnat (index + 1) + harmonicFrom (S index) n'
  end.

(** The field is not empty and contains the term, case apart. *)
Definition mentions (searchTerm : string) (f : field) : bool :=
  match f with
  | None => false
  | Some text =>
      negb (isEmpty text)
      && includes (toLowerCase text) (toLowerCase searchTerm)
  end.

(** Two fields that differ at most in the case of their letters. *)
Definition sameIgnoringCase (f g : field) : Prop :=
  match f, g with
  | None, None => True
  | Some a, Some b => toLowerCase a = toLowerCase b
  | _, _ => False
  end.

End Scoring.

Module Requests.
Import JsString Relevance Search.

(** The request [r] with the string [q] as its [query]. *)
Definition withQuery (q : string) (r : request) : request :=
  {| query := Some (JString q);
     includeResults := includeResults r;
     maxResults := maxResults r |}.

(** The request [r] with the JSON value [v] as its [query]. *)
Definition withQueryValue (v : json) (r : request) : request :=
  {| query := Some v;
     includeResults := includeResults r;
     maxResults := maxResults r |}.

Definition isString (v : json) : bool :=
  match v with
  | JString _ => true
  | _ => false
  end.

(** A reply that reports an error, turned into a reply with no rows and no
    error. *)
Definition emptyIfFailed {A} (r : reply A) : reply A :=
  if failed r then {| data := Some []; error := None |} else r.

(** The client whose lookups never report an error: a failing lookup of
    [supabase] finds nothing instead. *)
Definition maskErrors (supabase : client) : client :=
  {| people := fun q => emptyIfFailed (people supabase q);
     companies := fun q => emptyIfFailed (companies supabase q);
     projects := fun q => emptyIfFailed (projects supabase q) |}.

(** A collection that returns at most [limit] rows (none for a limit
    below 1). *)
Definition withinLimit {A} (store : lookup -> reply A) : Prop :=
  forall q, (Z.of_nat (List.length (rowsOf (store q))) <= Z.max (limit q) 0)%Z.

Definition honoursLimit (supabase : client) : Prop :=
  withinLimit (people supabase)
  /\ withinLimit (companies supabase)
  /\ withinLimit (projects supabase).

(** [sampleStore] cut to the limit asked for. *)
Definition limitedStore : client :=
  {| people := fun q =>
       {| data := Some (firstn (Z.to_nat (limit q)) [ada; bob]); error := None |};
     companies := fun q =>
       {| data := Some (firstn (Z.to_nat (limit q)) [acme]); error := None |};
     projects := fun q =>
       {| data := Some (firstn (Z.to_nat (limit q)) [tower]); error := None |} |}.

(** Where a candidate record comes from: the lookup of its category
    reported no error, its row is one of those that lookup returned, and
    [type] and [name] are set accordingly. *)
Definition comesFrom (supabase : client) (searchTerm : string) (maxResults : Z)
           (res : result) : Prop :=
  match item res with
  | PersonRow p =>
      type res = "person" /\ name res = person_name p
      /\ failed (people supabase (peopleLookup searchTerm maxResults)) = false
      /\ In p (rowsOf (people supabase (peopleLookup searchTerm maxResults)))
  | CompanyRow c =>
      type res = "company" /\ name res = company_name c
      /\ failed (companies supabase (companiesLookup searchTerm maxResults)) = false
      /\ In c (rowsOf (companies supabase (companiesLookup searchTerm maxResults)))
  | ProjectRow p =>
      type res = "project" /\ name res = project_title p
      /\ failed (projects supabase (projectsLookup searchTerm maxResults)) = false
      /\ In p (rowsOf (projects supabase (projectsLookup searchTerm maxResults)))
  end.

(** The description column of a row, for the collections that have one. *)
Definition ownDescription (i : row) : field :=
  match i with
  | PersonRow _ => None
  | CompanyRow c => company_description c
  | ProjectRow p => project_description p
  end.

End Requests.

(* ------------------------------------------------------------------ *)
(** * The navigation provider

    The breadcrumb state of
    src/apps/frontend/src/components/NavigationProvider.tsx. Each navigation
    function hands React an update of the previous state; the updates are
    modelled as functions on states, [None] standing for an update that
    throws. Logging and the [navigation-change] event dispatched after
    [navigateTo] are left out. *)

Module Navigation.
Import JsString.

Inductive ViewType :=
| Dashboard | Person | Project | Company | Lead | Research | Golf | Analytics
| Map | Bpda | Icp | Timeline | PeopleList | CompaniesList | ProjectsList
| Agents | ResearchSettings | TestFirecrawl.

(** The string each view is in the source. *)
Definition viewName (v : ViewType) : string :=
  match v with
  | Dashboard => "dashboard" | Person => "person" | Project => "project"
  | Company => "company" | Lead => "lead" | Research => "research"
  | Golf => "golf" | Analytics => "analytics" | Map => "map" | Bpda => "bpda"
  | Icp => "icp" | Timeline => "timeline" | PeopleList => "people-list"
  | CompaniesList => "companies-list" | ProjectsList => "projects-list"
  | Agents => "agents" | ResearchSettings => "research-settings"
  | TestFirecrawl => "test-firecrawl"
  end.

Record Breadcrumb := {
  label : string;
  view : ViewType;
  crumbEntityId : option string }.

Record NavigationState := {
  currentView : ViewType;
  entityId : option string;
  entityType : option string;
  breadcrumbs : list Breadcrumb }.

(** The state the provider starts in. *)
Definition initialState : NavigationState :=
  {| currentView := Dashboard;
     entityId := None;
     entityType := None;
     breadcrumbs :=
       [{| label := "Dashboard"; view := Dashboard; crumbEntityId := None |}] |}.

(** Upper-casing of one code unit, for the letters a-z (view names have no
    other letters). *)
Definition upperChar (c : ascii) : ascii :=
  let n := N_of_ascii c in
  if ((97 <=? n) && (n <=? 122))%N then ascii_of_N (n - 32) else c.

(** [s.charAt(0).toUpperCase() + s.slice(1)] *)
Definition capitalize (s : string) : string :=
  match s with
  | EmptyString => EmptyString
  | String c s' => String (upperChar c) s'
  end.

(** A string that is present and not empty. *)
Definition truthy (s : option string) : bool :=
  match s with
  | Some t => negb (isEmpty t)
  | None => false
  end.

(** [s || d] *)
Definition orDefault (s : option string) (d : string) : string :=
  match s with
  | Some t => if isEmpty t then d else t
  | None => d
  end.

Definition defaultLabel (v : ViewType) (id : option string) : string :=
  capitalize (viewName v) ++ " "
  ++ (if truthy id then "#" ++ orDefault id "" else "").

(** [navigateTo(view, entityId, entityType, label)] as an update of the
    previous state. *)
Definition navigateTo (v : ViewType) (id ty lbl : option string)
           (prev : NavigationState) : NavigationState :=
  let newBreadcrumb :=
    {| label := orDefault lbl (defaultLabel v id);
       view := v;
       crumbEntityId := id |} in
  {| currentView := v;
     entityId := id;
     entityType := ty;
     breadcrumbs := (breadcrumbs prev ++ [newBreadcrumb])%list |}.

(** [navigateBack()]: the last breadcrumb is dropped and the one before
    becomes current; reading it throws when there is none. *)
Definition navigateBack (prev : NavigationState) : option NavigationState :=
  let newBreadcrumbs := Search.slice0 (breadcrumbs prev) (-1) in
  match nth_error newBreadcrumbs (List.length newBreadcrumbs - 1) with
  | None => None
  | Some lastBreadcrumb =>
      Some {| currentView := view lastBreadcrumb;
              entityId := crumbEntityId lastBreadcrumb;
              entityType := None;
              breadcrumbs := newBreadcrumbs |}
  end.

Definition navigateToDashboard (prev : NavigationState) : NavigationState :=
  initialState.

Definition navigateToPerson (personId : string) (personName : option string) :=
  navigateTo Person (Some personId) (Some "person")
    (Some (orDefault personName ("Person " ++ personId))).

Definition navigateToProject (projectId : string) (projectName : option string) :=
  navigateTo Project (Some projectId) (Some "project")
    (Some (orDefault projectName ("Project " ++ projectId))).

Definition navigateToCompany (companyId : string) (companyName : option string) :=
  navigateTo Company (Some companyId) (Some "company")
    (Some (orDefault companyName ("Company " ++ companyId))).

Definition navigateToLead (leadId : string) (leadName : option string) :=
  navigateTo Lead (Some leadId) (Some "lead")
    (Some (orDefault leadName ("Lead " ++ leadId))).

Definition navigateToResearch (ty id : string) (entityName : option string) :=
  navigateTo Research (Some id) (Some ty)
    (Some ("Research: " ++ orDefault entityName id)).

Definition navigateToGolf := navigateTo Golf None None (Some "Golf Network").
Definition navigateToAnalytics :=
  navigateTo Analytics None None (Some "Analytics Dashboard").
Definition navigateToMap := navigateTo Map None None (Some "Projects Map").
Definition navigateToBPDA := navigateTo Bpda None None (Some "BPDA Manager").
Definition navigateToICP := navigateTo Icp None None (Some "ICP Settings").
Definition navigateToTimeline :=
  navigateTo Timeline None None (Some "Timeline View").
Definition navigateToPeopleList :=
  navigateTo PeopleList None None (Some "All People").
Definition navigateToCompaniesList :=
  navigateTo CompaniesList None None (Some "All Companies").
Definition navigateToProjectsList :=
  navigateTo ProjectsList None None (Some "All Projects").
Definition navigateToAgents := navigateTo Agents None None (Some "AI Agents").
Definition navigateToResearchSettings :=
  navigateTo ResearchSettings None None (Some "Research Settings").

(** ** Sequences of navigations *)

(** The functions of the context, as the steps a component can take. *)
Inductive action :=
| NavigateTo (v : ViewType) (id ty lbl : option string)
| NavigateBack
| NavigateToDashboard
| NavigateToPerson (personId : string) (personName : option string)
| NavigateToProject (projectId : string) (projectName : option string)
| NavigateToCompany (companyId : string) (companyName : option string)
| NavigateToLead (leadId : string) (leadName : option string)
| NavigateToResearch (ty id : string) (entityName : option string)
| NavigateToGolf | NavigateToAnalytics | NavigateToMap | NavigateToBPDA
| NavigateToICP | NavigateToTimeline | NavigateToPeopleList
| NavigateToCompaniesList | NavigateToProjectsList | NavigateToAgents
| NavigateToResearchSettings.

Definition step (a : action) (s : NavigationState) : option NavigationState :=
  match a with
  | NavigateTo v id ty lbl => Some (navigateTo v id ty lbl s)
  | NavigateBack => navigateBack s
  | NavigateToDashboard => Some (navigateToDashboard s)
  | NavigateToPerson i n => Some (navigateToPerson i n s)
  | NavigateToProject i n => Some (navigateToProject i n s)
  | NavigateToCompany i n => Some (navigateToCompany i n s)
  | NavigateToLead i n => Some (navigateToLead i n s)
  | NavigateToResearch t i n => Some (navigateToResearch t i n s)
  | NavigateToGolf => Some (navigateToGolf s)
  | NavigateToAnalytics => Some (navigateToAnalytics s)
  | NavigateToMap => Some (navigateToMap s)
  | NavigateToBPDA => Some (navigateToBPDA s)
  | NavigateToICP => Some (navigateToICP s)
  | NavigateToTimeline => Some (navigateToTimeline s)
  | NavigateToPeopleList => Some (navigateToPeopleList s)
  | NavigateToCompaniesList => Some (navigateToCompaniesList s)
  | NavigateToProjectsList => Some (navigateToProjectsList s)
  | NavigateToAgents => Some (navigateToAgents s)
  | NavigateToResearchSettings => Some (navigateToResearchSettings s)
  end.

(** The steps in order; [None] as soon as one throws. *)
Fixpoint steps (l : list action) (s : NavigationState) : option NavigationState :=
  match l with
  | [] => Some s
  | a :: l' =>
      match step a s with
      | Some s' => steps l' s'
      | None => None
      end
  end.

(** The state shows the view and the entity of its last breadcrumb, and
    the trail starts at the dashboard. *)
Definition consistent (s : NavigationState) : Prop :=
  (exists trail lbl,
      breadcrumbs s
      = (trail ++ [{| label := lbl;
                      view := currentView s;
                      crumbEntityId := entityId s |}])%list)
  /\ hd_error (breadcrumbs s)
     = Some {| label := "Dashboard"; view := Dashboard; crumbEntityId := None |}.

(** The state [s] with no entity type. *)
Definition withoutEntityType (s : NavigationState) : NavigationState :=
  {| currentView := currentView s;
     entityId := entityId s;
     entityType := None;
     breadcrumbs := breadcrumbs s |}.

(** Every breadcrumb of [s] has a label. *)
Definition labelled (s : NavigationState) : Prop :=
  Forall (fun b => label b <> "") (breadcrumbs s).

End Navigation.

(* ------------------------------------------------------------------ *)
(** * The voice transcription handler

    src/unnamed/part_000: [exports.handler], [transcribeWithOpenAI] and
    [transcribeWithDeepgram]. The two transcription services are
    parameters: what [fetch] resolves to for each. Exceptions are their
    messages. The rows written to [voice_analytics] are left out, as is
    logging: both writes sit in a [try] whose [catch] only logs, so they
    cannot change the response. *)

Module Voice.
Import JsString.

(** ** The environment and the event *)

Record env := {
  OPENAI_API_KEY : option string;
  DEEPGRAM_API_KEY : option string }.

(** [!!v] on an environment variable or on the body: present and not
    empty. *)
Definition present (v : option string) : bool :=
  match v with
  | Some s => negb (isEmpty s)
  | None => false
  end.

Definition valueOf (v : option string) : string :=
  match v with
  | Some s => s
  | None => ""
  end.

Definition buffer := list ascii.

Record event := {
  httpMethod : string;
  headers : list (string * string);
  body : option string;
  isBase64Encoded : bool }.

(** [headers[key]] *)
Fixpoint header (key : string) (hs : list (string * string)) : option string :=
  match hs with
  | [] => None
  | (k, v) :: hs' => if String.eqb k key then Some v else header key hs'
  end.

(** [a || b] on two optional strings *)
Definition firstPresent (a b : option string) : option string :=
  if present a then a else b.

(** ** What the services answer *)

Inductive reading (A : Type) :=
| Read (a : A)
| ReadError (message : string).
Arguments Read {A} _.
Arguments ReadError {A} _.

(** The body of a Deepgram answer as [transcribeWithDeepgram] goes through
    it: one of [results], [results.channels], [results.channels[0]] and
    its [alternatives] is missing; or reading
    [alternatives[0].transcript.trim()] throws; or there is a transcript. *)
Inductive deepgramBody :=
| NoResults
| NoTranscript (message : string)
| Transcript (t : string).

Record httpResponse := {
  ok : bool;
  status : string;
  text : reading string;
  json : reading deepgramBody }.

Inductive fetched :=
| FetchError (message : string)
| Response (r : httpResponse).

(** The two endpoints, given the key sent and the audio. *)
Record network := {
  openai : string -> buffer -> fetched;
  deepgram : string -> buffer -> fetched }.

Inductive call := OpenAI | Deepgram.

(** ** Computations that may throw and that record the services called *)

Inductive outcome (A : Type) :=
| Return (a : A)
| Throw (message : string).
Arguments Return {A} _.
Arguments Throw {A} _.

Definition M (A : Type) : Type := list call -> outcome A * list call.

Definition ret {A} (a : A) : M A := fun tr => (Return a, tr).
Definition throw {A} (message : string) : M A := fun tr => (Throw message, tr).
Definition bind {A B} (m : M A) (k : A -> M B) : M B :=
  fun tr =>
    match m tr with
    | (Return a, tr') => k a tr'
    | (Throw e, tr') => (Throw e, tr')
    end.
Definition tryCatch {A} (m : M A) (handle : string -> M A) : M A :=
  fun tr =>
    match m tr with
    | (Return a, tr') => (Return a, tr')
    | (Throw e, tr') => handle e tr'
    end.

Notation "x <- m ;; k" := (bind m (fun x => k))
  (at level 61, m at next level, right associativity).

(** [await fetch(...)] to one of the services *)
Definition fetch (c : call) (answer : fetched) : M httpResponse :=
  fun tr =>
    match answer with
    | FetchError message => (Throw message, (tr ++ [c])%list)
    | Response r => (Return r, (tr ++ [c])%list)
    end.

Definition await {A} (r : reading A) : M A :=
  match r with
  | Read a => ret a
  | ReadError message => throw message
  end.

(** ** The two services *)

Definition transcribeWithOpenAI (e : env) (net : network) (audioBuffer : buffer)
  : M string :=
  tryCatch
    (response <- fetch OpenAI (openai net (valueOf (OPENAI_API_KEY e)) audioBuffer) ;;
     if negb (ok response) then
       errorText <- await (text response) ;;
       throw ("OpenAI API error: " ++ status response ++ " - " ++ errorText)
     else
       transcript <- await (text response) ;;
       ret (trim transcript))
    (fun message => throw ("OpenAI transcription failed: " ++ message)).

Definition transcribeWithDeepgram (e : env) (net : network) (audioBuffer : buffer)
  : M string :=
  response <- fetch Deepgram (deepgram net (valueOf (DEEPGRAM_API_KEY e)) audioBuffer) ;;
  if negb (ok response) then
    errorText <- await (text response) ;;
    throw ("Deepgram API error: " ++ status response ++ " - " ++ errorText)
  else
    result <- await (json response) ;;
    match result with
    | NoResults => throw "No transcription results from Deepgram"
    | NoTranscript message => throw message
    | Transcript t => ret (trim t)
    end.

(** ** Responses *)

Record metadata := {
  audioSizeBytes : nat;
  transcriptLength : nat;
  serviceUsed : string;
  timestamp : string }.

Inductive payload :=
| NoContent
| MethodNotAllowed (error : string)
| Refused (error : string) (transcript : string)
| Transcribed (success : bool) (transcript : string) (meta : metadata)
| Failed (success : bool) (error : string) (transcript : string).

Record response := {
  statusCode : Z;
  responseHeaders : list (string * string);
  responseBody : payload }.

Definition respond (code : Z) (p : payload) : response :=
  {| statusCode := code; responseHeaders := Search.headers; responseBody := p |}.

(** ** The handler *)

(** The transcription step: OpenAI first when it is configured, Deepgram
    as a fallback or on its own. *)
Definition transcribe (e : env) (net : network) (audioBuffer : buffer) : M string :=
  if present (OPENAI_API_KEY e) then
    tryCatch (transcribeWithOpenAI e net audioBuffer)
      (fun openaiError =>
         if present (DEEPGRAM_API_KEY e) then
           tryCatch (transcribeWithDeepgram e net audioBuffer)
             (fun _ => throw "All transcription services failed")
         else throw openaiError)
  else if present (DEEPGRAM_API_KEY e) then
    tryCatch (transcribeWithDeepgram e net audioBuffer)
      (fun deepgramError => throw deepgramError)
  else ret "".

(** The body of the outer [try]. [decode base64 body] is
    [Buffer.from(body, 'base64')] or [Buffer.from(body)]. *)
Definition attempt (e : env) (net : network) (decode : bool -> string -> buffer)
           (now : string) (ev : event) : M response :=
  if negb (present (OPENAI_API_KEY e)) && negb (present (DEEPGRAM_API_KEY e)) then
    ret (respond 500
           (Refused "No transcription service configured. Please set OPENAI_API_KEY or DEEPGRAM_API_KEY." ""))
  else
    let contentType :=
      valueOf (firstPresent
                 (firstPresent (header "content-type" (headers ev))
                               (header "Content-Type" (headers ev)))
                 (Some "")) in
    if negb (includes contentType "multipart/form-data")
       && negb (includes contentType "audio/") then
      ret (respond 400
             (Refused "Content-Type must be multipart/form-data or audio/*" ""))
    else if negb (present (body ev)) then
      ret (respond 400 (Refused "No audio data provided" ""))
    else
      let audioBuffer := decode (isBase64Encoded ev) (valueOf (body ev)) in
      transcript <- transcribe e net audioBuffer ;;
      let transcript := trim transcript in
      ret (respond 200
             (Transcribed true transcript
                {| audioSizeBytes := List.length audioBuffer;
                   transcriptLength := String.length transcript;
                   serviceUsed :=
                     if present (OPENAI_API_KEY e) then "openai" else "deepgram";
                   timestamp := now |})).

Record run := {
  sent : response;
  called : list call }.

Definition handler (e : env) (net : network) (decode : bool -> string -> buffer)
           (now : string) (ev : event) : run :=
  if String.eqb (httpMethod ev) "OPTIONS" then
    {| sent := respond 200 NoContent; called := [] |}
  else if negb (String.eqb (httpMethod ev) "POST") then
    {| sent := respond 405 (MethodNotAllowed "Method not allowed"); called := [] |}
  else
    match attempt e net decode now ev [] with
    | (Return resp, tr) => {| sent := resp; called := tr |}
    | (Throw message, tr) =>
        {| sent := respond 500 (Failed false ("Transcription failed: " ++ message) "");
           called := tr |}
    end.

(** ** Observations and sample data *)

Definition transcriptOf (p : payload) : option string :=
  match p with
  | Transcribed _ t _ => Some t
  | _ => None
  end.

Definition metadataOf (p : payload) : option metadata :=
  match p with
  | Transcribed _ _ m => Some m
  | _ => None
  end.

(** What a service answers in the end: a transcript or an error message. *)
Definition openaiAnswer (e : env) (net : network) (audioBuffer : buffer)
  : outcome string :=
  fst (transcribeWithOpenAI e net audioBuffer []).

Definition deepgramAnswer (e : env) (net : network) (audioBuffer : buffer)
  : outcome string :=
  fst (transcribeWithDeepgram e net audioBuffer []).

(** A POST that passes the checks on the content type and the body. *)
Definition wellFormed (ev : event) : bool :=
  String.eqb (httpMethod ev) "POST"
  && (includes (valueOf (firstPresent
                           (firstPresent (header "content-type" (headers ev))
                                         (header "Content-Type" (headers ev)))
                           (Some ""))) "multipart/form-data"
      || includes (valueOf (firstPresent
                              (firstPresent (header "content-type" (headers ev))
                                            (header "Content-Type" (headers ev)))
                              (Some ""))) "audio/")
  && present (body ev).

Definition bothKeys : env :=
  {| OPENAI_API_KEY := Some "sk-test"; DEEPGRAM_API_KEY := Some "dg-test" |}.

Definition plainText (s : string) : httpResponse :=
  {| ok := true; status := "200"; text := Read s; json := ReadError "not JSON" |}.

Definition deepgramSays (t : string) : httpResponse :=
  {| ok := true; status := "200"; text := Read ""; json := Read (Transcript t) |}.

Definition tooManyRequests : httpResponse :=
  {| ok := false; status := "429"; text := Read "slow down";
     json := ReadError "not JSON" |}.

(** OpenAI refuses, Deepgram answers. *)
Definition openaiDown : network :=
  {| openai := fun _ _ => Response tooManyRequests;
     deepgram := fun _ _ => Response (deepgramSays " hello world ") |}.

Definition allDown : network :=
  {| openai := fun _ _ => FetchError "connect ECONNREFUSED";
     deepgram := fun _ _ => Response tooManyRequests |}.

(** A decoder for the examples, whose bodies are ASCII and not
    base64-encoded: the bytes are the characters. *)
Definition bytesOf (base64 : bool) (s : string) : buffer := list_ascii_of_string s.

(** The content type the handler looks at. *)
Definition contentTypeOf (ev : event) : string :=
  valueOf (firstPresent
             (firstPresent (header "content-type" (headers ev))
                           (header "Content-Type" (headers ev)))
             (Some "")).

Definition configured (e : env) : bool :=
  present (OPENAI_API_KEY e) || present (DEEPGRAM_API_KEY e).

Definition returned {A} (o : outcome A) : bool :=
  match o with
  | Return _ => true
  | Throw _ => false
  end.

Definition wavUpload : event :=
  {| httpMethod := "POST";
     headers := [("content-type", "audio/wav")];
     body := Some "RIFF";
     isBase64Encoded := false |}.

End Voice.

(* ------------------------------------------------------------------ *)
(** * The save-research handler

    src/unnamed/part_001, lines 1-259. The store is a parameter: what the
    upsert into [saved_research] and the insert into [generic_data_store]
    resolve to, the client being taken as created. The generated id
    ([Date.now] and [Math.random]), the successive readings of the clock
    and the length of [JSON.stringify(data)] are parameters too. The probe
    of the table before the upsert and the row written to [user_analytics]
    after it are left out, with logging: neither can change the response
    (the probe's result is not used, and both sit in a [try] whose [catch]
    carries on). Exceptions are their messages. *)

Module SaveResearch.
Import JsString.

Definition json := Search.json.

(** The properties read off the parsed body; [None] is [undefined]. *)
Record request := {
  id : option json;
  entityType : option json;
  entityName : option json;
  data : option json;
  confidence : option json;
  sources : option json;
  userId : option json }.

(** The outcome of [JSON.parse(event.body || '{}')]. *)
Inductive parsedBody :=
| Malformed (message : string)
| NullLiteral (message : string)
| Body (r : request).

Record event := {
  httpMethod : string;
  body : parsedBody }.

(** What the handler takes from its surroundings. *)
Record ambient := {
  generatedId : string;
  clock : nat -> string;
  awsRequestId : option string;
  stringifiedLength : json -> nat }.

(** A property that the validation has found present. *)
Definition the (v : option json) : json :=
  match v with
  | Some j => j
  | None => Search.JNull
  end.

(** [v || d] on an optional JSON value *)
Definition orJson (v : option json) (d : json) : json :=
  if Search.jsNot v then d
  else match v with
       | Some j => j
       | None => d
       end.

(** [v.length] for a JSON value: arrays and strings have one, an object has
    the one it carries, if any. *)
Definition lengthOf (v : json) : option json :=
  match v with
  | Search.JArray l => Some (Search.JNumber (inject_Z (Z.of_nat (List.length l))))
  | Search.JString s => Some (Search.JNumber (inject_Z (Z.of_nat (String.length s))))
  | Search.JObject fields =>
      match find (fun kv => String.eqb (fst kv) "length") (rev fields) with
      | Some kv => Some (snd kv)
      | None => None
      end
  | _ => None
  end.

Record researchRecord := {
  record_id : json;
  user_id : json;
  entity_type : json;
  entity_name : json;
  research_data : json;
  confidence_score : json;
  record_sources : json;
  created_at : string;
  updated_at : string;
  session_id : option string;
  saved_via : string;
  data_size : nat;
  source_count : option json }.

Record fallbackRecord := {
  fallback_id : json;
  fallback_type : string;
  fallback_data : researchRecord;
  fallback_created_at : string }.

(** ** The store *)

Record dbError := {
  code : option string;
  message : string }.

Record reply (A : Type) := {
  row : option A;
  error : option dbError }.
Arguments row {A} _.
Arguments error {A} _.

Record store := {
  upsert : researchRecord -> reply researchRecord;
  insertFallback : fallbackRecord -> reply fallbackRecord }.

Inductive write :=
| Upsert (r : researchRecord)
| Fallback (f : fallbackRecord).

(** ** Responses *)

Record savedMetadata := {
  meta_id : json;
  meta_entityType : json;
  meta_entityName : json;
  meta_userId : json;
  meta_savedAt : string;
  meta_dataSize : nat;
  meta_sourcesCount : option json }.

Inductive payload :=
| NoContent
| MethodNotAllowed (error : string)
| Invalid (error : string) (saved : bool)
| FallbackFailed (error : string) (saved : bool) (fallbackAttempted : bool)
| FallbackSaved (success saved : bool) (research : fallbackRecord)
    (message : string) (fallbackUsed : bool)
| DatabaseError (error : string) (saved : bool)
| Saved (success saved : bool) (research : researchRecord) (meta : savedMetadata)
| Crashed (success : bool) (error : string) (saved : bool).

Record response := {
  statusCode : Z;
  responseHeaders : list (string * string);
  responseBody : payload }.

Definition respond (status : Z) (p : payload) : response :=
  {| statusCode := status; responseHeaders := Search.headers; responseBody := p |}.

(** ** Computations that may throw and that record the writes they make *)

Inductive outcome (A : Type) :=
| Return (a : A)
| Throw (message : string).
Arguments Return {A} _.
Arguments Throw {A} _.

Definition M (A : Type) : Type := list write -> outcome A * list write.

Definition ret {A} (a : A) : M A := fun tr => (Return a, tr).
Definition throw {A} (message : string) : M A := fun tr => (Throw message, tr).
Definition bind {A B} (m : M A) (k : A -> M B) : M B :=
  fun tr =>
    match m tr with
    | (Return a, tr') => k a tr'
    | (Throw e, tr') => (Throw e, tr')
    end.
Definition perform {A} (w : write) (answer : reply A) : M (reply A) :=
  fun tr => (Return answer, (tr ++ [w])%list).

Notation "x <- m ;; k" := (bind m (fun x => k))
  (at level 61, m at next level, right associativity).

Definition parseAndDestructure (b : parsedBody) : M request :=
  match b with
  | Malformed message => throw message
  | NullLiteral message => throw message
  | Body r => ret r
  end.

(** ** The handler *)

(** [userId = 'anonymous'] in the destructuring *)
Definition userIdOf (r : request) : json :=
  match userId r with
  | None => Search.JString "anonymous"
  | Some v => v
  end.

Definition sourcesOf (r : request) : json := orJson (sources r) (Search.JArray []).

Definition researchRecordOf (a : ambient) (r : request) : researchRecord :=
  {| record_id := orJson (id r) (Search.JString (generatedId a));
     user_id := userIdOf r;
     entity_type := the (entityType r);
     entity_name := the (entityName r);
     research_data := the (data r);
     confidence_score := orJson (confidence r) Search.JNull;
     record_sources := sourcesOf r;
     created_at := clock a 0;
     updated_at := clock a 1;
     session_id := awsRequestId a;
     saved_via := "user_service";
     data_size := stringifiedLength a (the (data r));
     source_count := lengthOf (sourcesOf r) |}.

Definition isMissingTable (e : dbError) : bool :=
  match code e with
  | Some c => String.eqb c "42P01"
  | None => false
  end.

(** The body of the [try] block. [typeError] is the message of the error
    thrown when the row of a successful upsert is read but there is none. *)
Definition save (db : store) (a : ambient) (typeError : string) (ev : event)
  : M response :=
  r <- parseAndDestructure (body ev) ;;
  if Search.jsNot (entityType r) || Search.jsNot (entityName r)
     || Search.jsNot (data r) then
    ret (respond 400 (Invalid "entityType, entityName, and data are required" false))
  else
    let researchRecord := researchRecordOf a r in
    saved <- perform (Upsert researchRecord) (upsert db researchRecord) ;;
    match error saved with
    | Some saveError =>
        if isMissingTable saveError then
          let fallback :=
            {| fallback_id := record_id researchRecord;
               fallback_type := "saved_research";
               fallback_data := researchRecord;
               fallback_created_at := clock a 2 |} in
          fallbackSaved <- perform (Fallback fallback) (insertFallback db fallback) ;;
          match error fallbackSaved with
          | Some _ =>
              ret (respond 500
                     (FallbackFailed "Failed to save research data" false true))
          | None =>
              ret (respond 200
                     (FallbackSaved true true fallback
                        "Research saved to fallback storage" true))
          end
        else
          ret (respond 500
                 (DatabaseError ("Database error: " ++ message saveError) false))
    | None =>
        match row saved with
        | None => throw typeError
        | Some savedResearch =>
            ret (respond 200
                   (Saved true true savedResearch
                      {| meta_id := record_id savedResearch;
                         meta_entityType := the (entityType r);
                         meta_entityName := the (entityName r);
                         meta_userId := userIdOf r;
                         meta_savedAt := created_at savedResearch;
                         meta_dataSize := stringifiedLength a (the (data r));
                         meta_sourcesCount := lengthOf (sourcesOf r) |}))
        end
    end.

Record run := {
  sent : response;
  written : list write }.

Definition handler (db : store) (a : ambient) (typeError : string) (ev : event)
  : run :=
  if String.eqb (httpMethod ev) "OPTIONS" then
    {| sent := respond 200 NoContent; written := [] |}
  else if negb (String.eqb (httpMethod ev) "POST") then
    {| sent := respond 405 (MethodNotAllowed "Method not allowed"); written := [] |}
  else
    match save db a typeError ev [] with
    | (Return resp, tr) => {| sent := resp; written := tr |}
    | (Throw message, tr) =>
        {| sent := respond 500
                     (Crashed false ("Failed to save research: " ++ message) false);
           written := tr |}
    end.

(** ** Observations and sample data *)

(** The [saved] flag of a response body, when it has one. *)
Definition savedFlag (p : payload) : option bool :=
  match p with
  | NoContent | MethodNotAllowed _ => None
  | Invalid _ s | FallbackFailed _ s _ | DatabaseError _ s | Crashed _ _ s => Some s
  | FallbackSaved _ s _ _ _ | Saved _ s _ _ => Some s
  end.

(** Did the store accept the write? *)
Definition accepted (db : store) (w : write) : bool :=
  match w with
  | Upsert r =>
      match error (upsert db r) with
      | Some _ => false
      | None => true
      end
  | Fallback f =>
      match error (insertFallback db f) with
      | Some _ => false
      | None => true
      end
  end.

Definition idOfWrite (w : write) : json :=
  match w with
  | Upsert r => record_id r
  | Fallback f => fallback_id f
  end.

Definition complete (r : request) : bool :=
  negb (Search.jsNot (entityType r)) && negb (Search.jsNot (entityName r))
  && negb (Search.jsNot (data r)).

Definition sampleAmbient : ambient :=
  {| generatedId := "research-1700000000000-k3j9x0q1z";
     clock := fun _ => "2024-01-01T00:00:00.000Z";
     awsRequestId := Some "req-1";
     stringifiedLength := fun _ => 2%nat |}.

Definition sampleRequest : request :=
  {| id := None;
     entityType := Some (Search.JString "company");
     entityName := Some (Search.JString "Acme");
     data := Some (Search.JObject []);
     confidence := None;
     sources := None;
     userId := None |}.

Definition identifiedRequest : request :=
  {| id := Some (Search.JString "r-42");
     entityType := Some (Search.JString "company");
     entityName := Some (Search.JString "Acme");
     data := Some (Search.JObject []);
     confidence := None;
     sources := None;
     userId := None |}.

(** A store without the [saved_research] table, and a working fallback. *)
Definition noTable : store :=
  {| upsert := fun _ =>
       {| row := None;
          error := Some {| code := Some "42P01";
                           message := "relation does not exist" |} |};
     insertFallback := fun f => {| row := Some f; error := None |} |}.

(** A store that refuses the upsert for another reason. *)
Definition readOnly : store :=
  {| upsert := fun _ =>
       {| row := None;
          error := Some {| code := Some "42501"; message := "permission denied" |} |};
     insertFallback := fun f => {| row := Some f; error := None |} |}.

Definition working : store :=
  {| upsert := fun r => {| row := Some r; error := None |};
     insertFallback := fun f => {| row := Some f; error := None |} |}.

Definition post (r : request) : event :=
  {| httpMethod := "POST"; body := Body r |}.

End SaveResearch.

(* ------------------------------------------------------------------ *)
(** * Facts about the string primitives *)

Module JsStringFacts.
Import JsString.

Lemma append_nil_r (s : string) : s ++ "" = s.
Proof. induction s as [|c s IH]; simpl; [reflexivity | now rewrite IH]. Qed.

Lemma append_assoc (a b c : string) : (a ++ b) ++ c = a ++ b ++ c.
Proof. induction a as [|x a IH]; simpl; [reflexivity | now rewrite IH]. Qed.

Lemma isEmpty_true (s : string) : isEmpty s = true <-> s = "".
Proof. destruct s; simpl; split; congruence. Qed.

Lemma toLowerCase_length (s : string) :
  String.length (toLowerCase s) = String.length s.
Proof. induction s as [|c s IH]; simpl; [reflexivity | now rewrite IH]. Qed.

Lemma toLowerCase_nonempty (s : string) : s <> "" -> toLowerCase s <> "".
Proof. destruct s; simpl; congruence. Qed.

Lemma startsWith_append (t b : string) : startsWith (t ++ b) t = true.
Proof.
  induction t as [|c t IH]; simpl; [reflexivity|].
  now rewrite Ascii.eqb_refl, IH.
Qed.

Lemma startsWith_prefix (s t : string) :
  startsWith s t = true -> exists b, s = t ++ b.
Proof.
  revert s; induction t as [|c t IH]; intros s H.
  - exists s; reflexivity.
  - destruct s as [|a s]; simpl in H; [discriminate|].
    apply andb_true_iff in H as [Hc Ht].
    apply Ascii.eqb_eq in Hc; subst a.
    destruct (IH _ Ht) as [b ->].
    exists b; reflexivity.
Qed.

Lemma includes_unfold (s t : string) :
  includes s t =
  startsWith s t ||
  match s with EmptyString => false | String _ s' => includes s' t end.
Proof. destruct s; reflexivity. Qed.

Lemma includes_factor (s t : string) : includes s t = true <-> factor t s.
Proof.
  split.
  - induction s as [|c s IH]; rewrite includes_unfold; intros H;
      apply orb_true_iff in H as [H|H].
    + destruct (startsWith_prefix _ _ H) as [b Hb].
      exists "", b; exact Hb.
    + discriminate.
    + destruct (startsWith_prefix _ _ H) as [b Hb].
      exists "", b; exact Hb.
    + destruct (IH H) as (a & b & ->).
      exists (String c a), b; reflexivity.
  - intros (a & b & ->).
    induction a as [|c a IH]; rewrite includes_unfold.
    + simpl; now rewrite startsWith_append.
    + simpl; rewrite IH; apply orb_true_r.
Qed.

Lemma factor_trans (t w v : string) : factor t w -> factor w v -> factor t v.
Proof.
  intros (a & b & ->) (a' & b' & ->).
  exists (a' ++ a), (b ++ b').
  now rewrite !append_assoc.
Qed.

Lemma splitBy_head_prefix (sep : ascii -> bool) (s w : string) (ws : list string) :
  splitBy sep s = w :: ws -> exists b, s = w ++ b.
Proof.
  revert w ws; induction s as [|c s IH]; simpl; intros w ws H.
  - injection H as <- _; exists ""; reflexivity.
  - destruct (sep c).
    + injection H as <- _; exists (String c s); reflexivity.
    + destruct (splitBy sep s) as [|w1 ws1].
      * injection H as <- _; exists s; reflexivity.
      * injection H as <- _.
        destruct (IH _ _ eq_refl) as [b ->].
        exists b; reflexivity.
Qed.

Lemma splitBy_factor (sep : ascii -> bool) (s w : string) :
  In w (splitBy sep s) -> factor w s.
Proof.
  revert w; induction s as [|c s IH]; simpl; intros w H.
  - destruct H as [<-|[]]; exists "", ""; reflexivity.
  - destruct (sep c).
    + destruct H as [<-|H].
      * exists "", (String c s); reflexivity.
      * destruct (IH _ H) as (a & b & ->).
        exists (String c a), b; reflexivity.
    + destruct (splitBy sep s) as [|w1 ws1] eqn:E.
      * destruct H as [<-|[]]; exists "", s; reflexivity.
      * destruct H as [<-|H].
        -- destruct (splitBy_head_prefix _ _ _ _ E) as [b ->].
           exists "", b; reflexivity.
        -- destruct (IH w (or_intror H)) as (a & b & ->).
           exists (String c a), b; reflexivity.
Qed.

(** A piece of a string that does not contain [t] does not contain [t]
    either. *)
Lemma includes_piece (sep : ascii -> bool) (s t w : string) :
  includes s t = false -> In w (splitBy sep s) -> includes w t = false.
Proof.
  intros Hs Hw.
  destruct (includes w t) eqn:E; [|reflexivity].
  apply includes_factor in E.
  apply splitBy_factor in Hw.
  pose proof (factor_trans _ _ _ E Hw) as F.
  apply includes_factor in F; congruence.
Qed.

Lemma filter_none {A} (f : A -> bool) (l : list A) :
  (forall x, In x l -> f x = false) -> filter f l = [].
Proof.
  induction l as [|x l IH]; simpl; intros H; [reflexivity|].
  rewrite (H x (or_introl eq_refl)).
  apply IH; intros y Hy; apply H; now right.
Qed.

Lemma split_no_match (s t : string) (sep : ascii) :
  includes s t = false ->
  filter (fun word => includes word t) (split s sep) = [].
Proof.
  intros H; apply filter_none; intros w Hw.
  eapply includes_piece; eauto.
Qed.

Lemma words_no_match (s t : string) :
  includes s t = false ->
  filter (fun w => includes w t) (words s) = [].
Proof.
  intros H; apply filter_none; intros w Hw.
  apply filter_In in Hw as [Hw _].
  eapply includes_piece; eauto.
Qed.

End JsStringFacts.

(* ------------------------------------------------------------------ *)
(** * Facts about the relevance score *)

Module RelevanceFacts.
Import JsString JsStringFacts Relevance.
Local Open Scope Q_scope.

Example lower_acme : toLowerCase "Acme Corp" = "acme corp".
Proof. reflexivity. Qed.

Example trim_padded : trim "  Acme " = "Acme".
Proof. reflexivity. Qed.

Example split_double_space : split "a  b" " " = ["a"; ""; "b"]%string.
Proof. reflexivity. Qed.

Example exact_name : calculateRelevance "Acme" [Some "Acme"; None; None] == 100.
Proof. vm_compute. reflexivity. Qed.

Example third_field_prefix :
  calculateRelevance "Acme" [Some "Tower"; None; Some "Acme Corp"] == 80 # 3.
Proof. vm_compute. reflexivity. Qed.

Example mixed_fields :
  calculateRelevance "acme" [Some "ACME"; Some "The Acme Group"; Some "acme labs"]
  == 100 + 30 + (80 # 3).
Proof. vm_compute. reflexivity. Qed.

(** The word-by-word branch never adds anything: it is reached only when
    the field does not contain the term, and then no word of it does. *)
Lemma visit_no_substring (term text : string) (score : Q) (index : nat) :
  isEmpty text = false ->
  includes (toLowerCase text) term = false ->
  visit term score (Some text) index = score.
Proof.
  intros Hne Hinc; unfold visit; rewrite Hne.
  assert (Hs : startsWith (toLowerCase text) term = false).
  { rewrite includes_unfold in Hinc.
    now apply orb_false_iff in Hinc as [? _]. }
  assert (He : String.eqb (toLowerCase text) term = false).
  { apply String.eqb_neq; intros E.
    rewrite E, includes_unfold in Hinc.
    rewrite <- (append_nil_r term) in Hinc at 1.
    now rewrite startsWith_append in Hinc. }
  cbv zeta. rewrite He, Hs, Hinc.
  now rewrite (split_no_match _ _ _ Hinc).
Qed.

Lemma spec_contribution_no_substring (term text : string) :
  includes (toLowerCase text) term = false ->
  spec_contribution term (Some text) = 0.
Proof.
  intros Hinc; unfold spec_contribution.
  assert (Hs : startsWith (toLowerCase text) term = false).
  { rewrite includes_unfold in Hinc.
    now apply orb_false_iff in Hinc as [? _]. }
  assert (He : String.eqb (toLowerCase text) term = false).
  { apply String.eqb_neq; intros E.
    rewrite E, includes_unfold in Hinc.
    rewrite <- (append_nil_r term) in Hinc at 1.
    now rewrite startsWith_append in Hinc. }
  cbv zeta. rewrite He, Hs, Hinc.
  now rewrite (words_no_match _ _ Hinc).
Qed.

(** One step of the loop adds the weighted contribution of the field. *)
Lemma visit_spec (term : string) (score : Q) (f : field) (index : nat) :
  term <> "" ->
  visit term score f index
  == score + spec_weight index * spec_contribution term f.
Proof.
  intros Hterm.
  destruct f as [text|]; [|simpl; ring].
  destruct (includes (toLowerCase text) term) eqn:Hinc.
  - (* the field contains the term, so it is not empty *)
    assert (Hne : isEmpty text = false).
    { destruct text; [|reflexivity].
      destruct term; [congruence | discriminate]. }
    unfold visit, spec_contribution, spec_weight; rewrite Hne; cbv zeta.
    rewrite Hinc.
    destruct (String.eqb (toLowerCase text) term); [ring|].
    destruct (startsWith (toLowerCase text) term); ring.
  - rewrite (spec_contribution_no_substring _ _ Hinc).
    destruct (isEmpty text) eqn:Hne.
    + unfold visit; rewrite Hne; ring.
    + rewrite (visit_no_substring _ _ _ _ Hne Hinc); ring.
Qed.

Lemma forEach_visit_spec (term : string) (fields : list field) :
  term <> "" ->
  forall (index : nat) (score : Q),
    forEach (visit term) fields index score
    == score + spec_sum term fields index.
Proof.
  intros Hterm; induction fields as [|f fs IH]; intros index score; simpl.
  - ring.
  - rewrite IH, (visit_spec _ _ _ _ Hterm); ring.
Qed.

Lemma calculateRelevance_spec_sum (searchTerm : string) (fields : list field) :
  searchTerm <> "" ->
  calculateRelevance searchTerm fields
  == 0 + spec_sum (toLowerCase searchTerm) fields 0%nat.
Proof.
  intros H; unfold calculateRelevance.
  exact (forEach_visit_spec _ _ (toLowerCase_nonempty _ H) 0%nat 0).
Qed.

(** C1. For every (non-empty) query term and every list of candidate
    fields, the score [calculateRelevance] returns is the sum over the
    field positions [i] of [1/(i+1)] times the field's contribution:
    0 for a null field, 100 when the lower-cased value equals the
    lower-cased term, else 80 when it starts with it, else 60 when it
    contains it, else [30*m/wordCount] for [m] white-space separated
    words containing the term (0 when [m = 0]). *)
Theorem calculateRelevance_weighted_sum (searchTerm : string) (fields : list field) :
  searchTerm <> "" ->
  calculateRelevance searchTerm fields == spec_relevance searchTerm fields.
Proof.
  intros H; unfold spec_relevance.
  rewrite (calculateRelevance_spec_sum _ _ H); ring.
Qed.

Lemma calculateRelevance_weighted_sum_witness :
  "Acme" <> "" /\
  calculateRelevance "Acme" [Some "Tower"; None; Some "Acme Corp"]
  == spec_relevance "Acme" [Some "Tower"; None; Some "Acme Corp"].
Proof.
  split; [discriminate|].
  apply calculateRelevance_weighted_sum; discriminate.
Defined.

(** Outside the handler's reach (it rejects blank queries before scoring):
    with the empty term, an empty field is skipped by the code although it
    equals the term. *)
Remark empty_term_empty_field :
  calculateRelevance "" [Some ""] == 0 /\ spec_relevance "" [Some ""] == 100.
Proof. split; vm_compute; reflexivity. Qed.

End RelevanceFacts.

(* ------------------------------------------------------------------ *)
(** * Facts about sorting and truncation *)

Module RankingFacts.
Import Relevance Search.
Local Open Scope Q_scope.

Lemma insert_In {A} (cmp : A -> A -> Q) (x z : A) (l : list A) :
  In z (insert cmp x l) -> z = x \/ In z l.
Proof.
  induction l as [|y l IH]; simpl.
  - intros [<-|[]]; now left.
  - destruct (Qle_bool (cmp x y) 0); simpl.
    + intros [<-|H]; [now left | now right].
    + intros [<-|H]; [right; now left|].
      destruct (IH H); [now left | right; now right].
Qed.

Lemma insert_perm {A} (cmp : A -> A -> Q) (x : A) (l : list A) :
  Permutation (insert cmp x l) (x :: l).
Proof.
  induction l as [|y l IH]; simpl; [reflexivity|].
  destruct (Qle_bool (cmp x y) 0); [reflexivity|].
  rewrite IH; apply perm_swap.
Qed.

Lemma sort_perm {A} (cmp : A -> A -> Q) (l : list A) :
  Permutation (sort cmp l) l.
Proof.
  induction l as [|x l IH]; simpl; [reflexivity|].
  rewrite insert_perm; now constructor.
Qed.

Lemma sort_length {A} (cmp : A -> A -> Q) (l : list A) :
  List.length (sort cmp l) = List.length l.
Proof. apply Permutation_length, sort_perm. Qed.

Lemma insert_descending (x : result) (l : list result) :
  descending l -> descending (insert byScoreDescending x l).
Proof.
  unfold descending.
  induction l as [|y l IH]; simpl; intros H.
  - repeat constructor.
  - inversion H as [|? ? Hl Hy]; subst.
    destruct (Qle_bool (byScoreDescending x y) 0) eqn:E.
    + (* [x] stays in front of [y], and of all that [y] dominates *)
      apply Qle_bool_iff in E; unfold byScoreDescending in E.
      constructor; [exact H|].
      constructor; [lra|].
      eapply Forall_impl; [|exact Hy].
      intros z Hz; simpl in Hz; lra.
    + (* [y] scores strictly more than [x] *)
      assert (Hyx : relevanceScore x <= relevanceScore y).
      { apply Qnot_lt_le; intros Hlt.
        assert (Qle_bool (byScoreDescending x y) 0 = true); [|congruence].
        apply Qle_bool_iff; unfold byScoreDescending; lra. }
      constructor; [now apply IH|].
      apply Forall_forall; intros z Hz.
      apply insert_In in Hz as [->|Hz]; [exact Hyx|].
      rewrite Forall_forall in Hy; now apply Hy.
Qed.

Lemma sort_descending (l : list result) : descending (sort byScoreDescending l).
Proof.
  induction l as [|x l IH]; simpl; [constructor | now apply insert_descending].
Qed.

Lemma firstn_In {A} (n : nat) (l : list A) (x : A) : In x (firstn n l) -> In x l.
Proof.
  revert n; induction l as [|y l IH]; intros [|n]; simpl; try tauto.
  intros [->|H]; [now left | right; eauto].
Qed.

Lemma firstn_descending (n : nat) (l : list result) :
  descending l -> descending (firstn n l).
Proof.
  unfold descending; revert n; induction l as [|x l IH]; intros [|n] H; simpl;
    try constructor.
  - inversion H; subst; now apply IH.
  - inversion H as [|? ? _ Hx]; subst.
    rewrite Forall_forall in *; intros z Hz.
    apply Hx; eapply firstn_In; eauto.
Qed.

Lemma slice0_descending (l : list result) (e : Z) :
  descending l -> descending (slice0 l e).
Proof. apply firstn_descending. Qed.

Lemma slice0_length_le {A} (l : list A) (e : Z) :
  (List.length (slice0 l e) <= List.length l)%nat.
Proof. unfold slice0; rewrite length_firstn; apply Nat.le_min_r. Qed.

Lemma slice0_length_bound {A} (l : list A) (e : Z) :
  (0 <= e)%Z -> (Z.of_nat (List.length (slice0 l e)) <= e)%Z.
Proof.
  intros He; unfold slice0.
  destruct (e <? 0)%Z eqn:E; [apply Z.ltb_lt in E; lia|].
  rewrite length_firstn; lia.
Qed.


Lemma slice0_zero {A} (l : list A) : slice0 l 0 = [].
Proof. unfold slice0; simpl. rewrite Z.min_l by lia. reflexivity. Qed.

(** A negative end drops that many entries from the end. *)
Lemma slice0_negative {A} (l : list A) (e : Z) :
  (e < 0)%Z -> slice0 l e = firstn (List.length l - Z.to_nat (- e)) l.
Proof.
  intros He; unfold slice0.
  pose proof He as Hb; apply Z.ltb_lt in Hb; rewrite Hb.
  f_equal; lia.
Qed.

End RankingFacts.

(* ------------------------------------------------------------------ *)
(** * Facts about the handler *)

Module SearchFacts.
Import JsString JsStringFacts Relevance Search RankingFacts.

Lemma onReply_candidates {A} (f : A -> result) (r : reply A) :
  onReply f r = if failed r then [] else map f (rowsOf r).
Proof. unfold onReply, failed, rowsOf; destruct (error r), (data r); reflexivity. Qed.

Lemma length_zero_empty (s : string) : (String.length s =? 0)%nat = isEmpty s.
Proof. destruct s; reflexivity. Qed.

Lemma nonblank_not_falsy (q : string) : trim q <> "" -> isEmpty q = false.
Proof. destruct q; [intros H; now elim H | reflexivity]. Qed.

(** ** The paths through the handler *)

Lemma handler_options supabase timestamp ev :
  httpMethod ev = "OPTIONS" ->
  handler supabase timestamp ev = rejected 200 NoContent.
Proof. intros H; unfold handler; rewrite H; reflexivity. Qed.

Lemma handler_other_method supabase timestamp ev :
  httpMethod ev <> "OPTIONS" -> httpMethod ev <> "POST" ->
  handler supabase timestamp ev
  = rejected 405 (MethodNotAllowed "Method not allowed").
Proof.
  intros H1 H2; unfold handler.
  apply String.eqb_neq in H1, H2; rewrite H1, H2; reflexivity.
Qed.

Lemma handler_post supabase timestamp ev :
  httpMethod ev = "POST" ->
  handler supabase timestamp ev =
  match tryCatch (search supabase timestamp ev)
          (fun _ => ret (sent internalError)) [] with
  | (Return resp, tr) => {| sent := resp; issued := tr |}
  | (Throw _, tr) => {| sent := sent internalError; issued := tr |}
  end.
Proof. intros H; unfold handler; rewrite H; reflexivity. Qed.

Lemma handler_malformed supabase timestamp ev :
  httpMethod ev = "POST" -> body ev = Malformed ->
  handler supabase timestamp ev = internalError.
Proof.
  intros Hm Hb; rewrite (handler_post _ _ _ Hm).
  unfold tryCatch, search, bind; rewrite Hb; reflexivity.
Qed.

Lemma handler_null_literal supabase timestamp ev :
  httpMethod ev = "POST" -> body ev = NullLiteral ->
  handler supabase timestamp ev = internalError.
Proof.
  intros Hm Hb; rewrite (handler_post _ _ _ Hm).
  unfold tryCatch, search, bind; rewrite Hb; reflexivity.
Qed.

Lemma handler_falsy_query supabase timestamp ev r :
  httpMethod ev = "POST" -> body ev = Body r -> jsNot (query r) = true ->
  handler supabase timestamp ev = queryRequired.
Proof.
  intros Hm Hb Hq; rewrite (handler_post _ _ _ Hm).
  unfold tryCatch, search, bind; rewrite Hb; simpl; rewrite Hq; reflexivity.
Qed.

Lemma handler_blank_query supabase timestamp ev r q :
  httpMethod ev = "POST" -> body ev = Body r ->
  query r = Some (JString q) -> trim q = "" ->
  handler supabase timestamp ev = queryRequired.
Proof.
  intros Hm Hb Hq Hblank; rewrite (handler_post _ _ _ Hm).
  unfold tryCatch, search, bind; rewrite Hb; simpl; rewrite Hq; simpl.
  destruct (isEmpty q); [reflexivity|].
  simpl; rewrite Hblank; reflexivity.
Qed.

(** A truthy [query] that is not a string has no [trim] method. *)
Lemma handler_query_not_string supabase timestamp ev r :
  httpMethod ev = "POST" -> body ev = Body r ->
  jsNot (query r) = false -> (forall q, query r <> Some (JString q)) ->
  handler supabase timestamp ev = internalError.
Proof.
  intros Hm Hb Hq Hs; rewrite (handler_post _ _ _ Hm).
  unfold tryCatch, search, bind; rewrite Hb; simpl; rewrite Hq.
  destruct (query r) as [[| | |q| |]|]; try reflexivity.
  now elim (Hs q).
Qed.

Lemma handler_search supabase timestamp ev r q :
  httpMethod ev = "POST" -> body ev = Body r ->
  query r = Some (JString q) -> trim q <> "" ->
  handler supabase timestamp ev = searchRun supabase timestamp r (trim q).
Proof.
  intros Hm Hb Hq Hne; rewrite (handler_post _ _ _ Hm).
  unfold tryCatch, search, bind; rewrite Hb; simpl.
  rewrite Hq; simpl.
  rewrite (nonblank_not_falsy _ Hne); simpl.
  rewrite length_zero_empty.
  destruct (isEmpty (trim q)) eqn:E; [apply isEmpty_true in E; contradiction|].
  simpl.
  unfold searchRun, merged, candidatesOf, lookupFailed, returnedBy; simpl.
  rewrite !onReply_candidates; reflexivity.
Qed.

(** Every invocation takes one of these paths. *)
Lemma handler_cases supabase timestamp ev :
  handler supabase timestamp ev = rejected 200 NoContent
  \/ handler supabase timestamp ev
     = rejected 405 (MethodNotAllowed "Method not allowed")
  \/ handler supabase timestamp ev = queryRequired
  \/ handler supabase timestamp ev = internalError
  \/ exists r q,
       body ev = Body r /\ query r = Some (JString q) /\ trim q <> "" /\
       handler supabase timestamp ev = searchRun supabase timestamp r (trim q).
Proof.
  destruct (String.eqb_spec (httpMethod ev) "OPTIONS") as [Ho|Ho].
  { left; now apply handler_options. }
  destruct (String.eqb_spec (httpMethod ev) "POST") as [Hp|Hp].
  2:{ right; left; now apply handler_other_method. }
  destruct (body ev) as [| |r] eqn:Hb.
  { do 3 right; left; now apply handler_malformed. }
  { do 3 right; left; now apply handler_null_literal. }
  destruct (jsNot (query r)) eqn:Hq.
  { do 2 right; left; eapply handler_falsy_query; eauto. }
  destruct (query r) as [[| | |q| |]|] eqn:Hv;
    try (do 3 right; left; eapply handler_query_not_string; eauto;
         rewrite Hv; congruence).
  destruct (String.eqb_spec (trim q) "") as [Ht|Ht].
  - do 2 right; left; eapply handler_blank_query; eauto.
  - do 4 right; exists r, q; repeat split; auto.
      eapply handler_search; eauto.
Qed.

(** ** Validation *)

(** C3, as the code has it. A POST whose body parses to a JSON value other
    than [null] and has no [query] property, or whose [query] is a string
    that trims to the empty string, is answered with status 400, an error
    message and an empty [results] array, and no lookup is sent. *)
Theorem missing_or_blank_query_rejected supabase timestamp ev r :
  httpMethod ev = "POST" -> body ev = Body r ->
  (query r = None \/ exists q, query r = Some (JString q) /\ trim q = "") ->
  let out := handler supabase timestamp ev in
  statusCode (sent out) = 400%Z /\
  responseBody (sent out) = QueryRequired "Query parameter is required" [] /\
  issued out = [].
Proof.
  intros Hm Hb Hq out; subst out.
  assert (E : handler supabase timestamp ev = queryRequired).
  { destruct Hq as [Hq|(q & Hq & Ht)].
    - eapply handler_falsy_query; eauto. now rewrite Hq.
    - eapply handler_blank_query; eauto. }
  rewrite E; repeat split.
Qed.

Lemma missing_or_blank_query_rejected_witness :
  let out := handler sampleStore "2024-01-01T00:00:00.000Z"
               (post (searchFor "   " None None)) in
  statusCode (sent out) = 400%Z /\
  responseBody (sent out) = QueryRequired "Query parameter is required" [] /\
  issued out = [].
Proof.
  apply (missing_or_blank_query_rejected sampleStore _ _ (searchFor "   " None None));
    [reflexivity | reflexivity |].
  right; exists "   "; split; reflexivity.
Defined.

(** The same answer for a body with no properties at all, which is what
    a missing [event.body] parses to. *)
Example empty_body_rejected :
  handler sampleStore "t"
    (post {| query := None; includeResults := None; maxResults := None |})
  = queryRequired.
Proof. reflexivity. Qed.

(** C3, as stated, fails: the body [null] is valid JSON and has no [query]
    field, but destructuring it throws, and the catch-all answers 500, not
    400 (no lookup is sent either). *)
Lemma null_body_not_400 :
  let out := handler sampleStore "2024-01-01T00:00:00.000Z"
               {| httpMethod := "POST"; body := NullLiteral |} in
  statusCode (sent out) = 500%Z /\ statusCode (sent out) <> 400%Z
  /\ responseBody (sent out)
     = SearchFailed false "Internal server error during search" []
  /\ issued out = [].
Proof. repeat split; discriminate. Qed.

(** The literal [null] cannot be destructured: it goes to the catch-all. *)
Example null_body_internal_error :
  handler sampleStore "t" {| httpMethod := "POST"; body := NullLiteral |}
  = internalError.
Proof. reflexivity. Qed.

(** C8, as the code has it. A POST whose body is not parseable as JSON is
    answered by the catch-all: status 500, [success: false], a generic
    error message and an empty [results] array; no lookup is sent. *)
Theorem malformed_body_internal_error supabase timestamp ev :
  httpMethod ev = "POST" -> body ev = Malformed ->
  let out := handler supabase timestamp ev in
  statusCode (sent out) = 500%Z /\
  responseBody (sent out)
  = SearchFailed false "Internal server error during search" [] /\
  issued out = [].
Proof.
  intros Hm Hb out; subst out.
  rewrite (handler_malformed _ _ _ Hm Hb); repeat split.
Qed.

Lemma malformed_body_internal_error_witness :
  let out := handler sampleStore "2024-01-01T00:00:00.000Z"
               {| httpMethod := "POST"; body := Malformed |} in
  statusCode (sent out) = 500%Z /\
  responseBody (sent out)
  = SearchFailed false "Internal server error during search" [] /\
  issued out = [].
Proof.
  apply (malformed_body_internal_error sampleStore _
           {| httpMethod := "POST"; body := Malformed |}); reflexivity.
Defined.

(** C8, as stated, fails: a malformed body is not answered with 400. *)
Lemma malformed_body_not_400 :
  let out := handler sampleStore "2024-01-01T00:00:00.000Z"
               {| httpMethod := "POST"; body := Malformed |} in
  statusCode (sent out) = 500%Z /\ statusCode (sent out) <> 400%Z.
Proof. split; [reflexivity | discriminate]. Qed.

(** ** Ranking *)

(** C4. Whenever the handler answers 200, the [results] it returns are in
    non-increasing order of [relevanceScore]. *)
Theorem results_sorted supabase timestamp ev :
  statusCode (sent (handler supabase timestamp ev)) = 200%Z ->
  descending (resultsOf (responseBody (sent (handler supabase timestamp ev)))).
Proof.
  destruct (handler_cases supabase timestamp ev)
    as [E|[E|[E|[E|(r & q & _ & _ & _ & E)]]]]; rewrite E; simpl;
    try discriminate; intros _; try constructor.
  destruct (includeResultsOf r); [|constructor].
  apply slice0_descending, sort_descending.
Qed.

Lemma results_sorted_witness :
  let out := handler sampleStore "2024-01-01T00:00:00.000Z"
               (post (searchFor "acme" None None)) in
  statusCode (sent out) = 200%Z /\
  descending (resultsOf (responseBody (sent out))).
Proof.
  split; [reflexivity|].
  apply results_sorted; reflexivity.
Defined.

(** C5. For a non-blank query and a positive [maxResults], the 200
    response has at most [maxResults] results and [totalResults] is the
    number of merged candidates before truncation, hence at least the
    number of results. *)
Theorem results_bounded supabase timestamp ev r q :
  httpMethod ev = "POST" -> body ev = Body r ->
  query r = Some (JString q) -> trim q <> "" ->
  (0 < maxResultsOf r)%Z ->
  let resp := sent (handler supabase timestamp ev) in
  let results := resultsOf (responseBody resp) in
  statusCode resp = 200%Z /\
  (Z.of_nat (List.length results) <= maxResultsOf r)%Z /\
  exists totalResults,
    totalResultsOf (responseBody resp) = Some totalResults /\
    totalResults = List.length (merged supabase (trim q) (maxResultsOf r)) /\
    (List.length results <= totalResults)%nat.
Proof.
  intros Hm Hb Hq Hne Hpos resp results; subst results resp.
  rewrite (handler_search _ _ _ _ _ Hm Hb Hq Hne); simpl.
  split; [reflexivity|].
  split.
  - destruct (includeResultsOf r); [|simpl; lia].
    apply slice0_length_bound; lia.
  - eexists; split; [reflexivity|]; split; [reflexivity|].
    destruct (includeResultsOf r); [|simpl; lia].
    eapply Nat.le_trans; [apply slice0_length_le|].
    now rewrite sort_length.
Qed.

Lemma results_bounded_witness :
  let resp := sent (handler sampleStore "2024-01-01T00:00:00.000Z"
                      (post (searchFor " Acme " None (Some 1%Z)))) in
  let results := resultsOf (responseBody resp) in
  statusCode resp = 200%Z /\
  (Z.of_nat (List.length results) <= 1)%Z /\
  exists totalResults,
    totalResultsOf (responseBody resp) = Some totalResults /\
    totalResults = List.length (merged sampleStore "Acme" 1) /\
    (List.length results <= totalResults)%nat.
Proof.
  apply (results_bounded sampleStore _ _ (searchFor " Acme " None (Some 1%Z)) " Acme ");
    try reflexivity.
  discriminate.
Defined.

(** ** The queries sent *)

Lemma perCategoryLimit_div (m : Z) : perCategoryLimit m = (- (- m / 3))%Z.
Proof.
  unfold perCategoryLimit, ceil, Qceiling, Qfloor; simpl.
  now rewrite Z.mul_1_r.
Qed.

(** [perCategoryLimit m] is the ceiling of [m / 3]: the least integer
    whose triple reaches [m]. *)
Lemma perCategoryLimit_ceiling (m : Z) :
  (3 * (perCategoryLimit m - 1) < m <= 3 * perCategoryLimit m)%Z.
Proof.
  rewrite perCategoryLimit_div.
  Z.div_mod_to_equations; lia.
Qed.

(** C6. A search sends one query per category (people, companies,
    projects, in this order), each with row limit [ceil(maxResults / 3)];
    with the default [maxResults] of 10 the limit is 4. *)
Theorem lookups_limited supabase timestamp ev r q :
  httpMethod ev = "POST" -> body ev = Body r ->
  query r = Some (JString q) -> trim q <> "" ->
  let m := maxResultsOf r in
  let out := handler supabase timestamp ev in
  map table (issued out) = ["people"; "companies"; "projects"] /\
  Forall (fun l => limit l = ceil (inject_Z m / 3) /\
                   (3 * (limit l - 1) < m <= 3 * limit l)%Z) (issued out) /\
  (maxResults r = None -> Forall (fun l => limit l = 4%Z) (issued out)).
Proof.
  intros Hm Hb Hq Hne m out; subst m out.
  rewrite (handler_search _ _ _ _ _ Hm Hb Hq Hne); simpl.
  split; [reflexivity|]; split.
  - repeat constructor; apply perCategoryLimit_ceiling.
  - unfold maxResultsOf; intros ->; repeat constructor.
Qed.

Lemma lookups_limited_witness :
  let out := handler sampleStore "2024-01-01T00:00:00.000Z"
               (post (searchFor "acme" None (Some 7%Z))) in
  map table (issued out) = ["people"; "companies"; "projects"] /\
  Forall (fun l => limit l = ceil (inject_Z 7 / 3) /\
                   (3 * (limit l - 1) < 7 <= 3 * limit l)%Z) (issued out) /\
  (maxResults (searchFor "acme" None (Some 7%Z)) = None ->
   Forall (fun l => limit l = 4%Z) (issued out)).
Proof.
  apply (lookups_limited sampleStore _ _ (searchFor "acme" None (Some 7%Z)) "acme");
    try reflexivity.
  discriminate.
Defined.

Example default_limit_is_four :
  map limit (issued (handler sampleStore "t" (post (searchFor "acme" None None))))
  = [4; 4; 4]%Z.
Proof. reflexivity. Qed.

(** ** Analytics *)

(** C9. In every search response the three per-category counts add up to
    [totalResults] (in [analytics] and at the top level alike): the merged
    list is the concatenation of the three per-category lists. *)
Theorem counts_sum_to_total supabase timestamp ev ok q rs a n :
  responseBody (sent (handler supabase timestamp ev))
  = SearchCompleted ok q rs a n ->
  (resultsByType_people a + resultsByType_companies a
   + resultsByType_projects a = n)%nat /\
  analytics_totalResults a = n.
Proof.
  destruct (handler_cases supabase timestamp ev)
    as [E|[E|[E|[E|(r & q' & _ & _ & _ & E)]]]]; rewrite E; simpl;
    try discriminate.
  intros H; injection H as _ _ _ <- <-; simpl.
  unfold merged; simpl; rewrite !length_app; simpl; lia.
Qed.

Lemma counts_sum_to_total_witness :
  exists ok q rs a n,
    responseBody (sent (handler sampleStore "2024-01-01T00:00:00.000Z"
                          (post (searchFor "acme" None None))))
    = SearchCompleted ok q rs a n /\
    (resultsByType_people a + resultsByType_companies a
     + resultsByType_projects a = n)%nat /\
    analytics_totalResults a = n /\ n = 4%nat.
Proof.
  do 5 eexists.
  split; [reflexivity|].
  split; [|split; [|reflexivity]];
    eapply (counts_sum_to_total sampleStore "2024-01-01T00:00:00.000Z"
              (post (searchFor "acme" None None))); reflexivity.
Defined.

(** ** The [includeResults] flag *)

(** C7. With [includeResults: false] a successful search returns an empty
    [results] array; the analytics and [totalResults] are those computed
    from the merged candidates, the same as with the flag on, and nothing
    else in the response (nor in the queries sent) depends on the flag. *)
Theorem includeResults_false_empties_results supabase timestamp r q v :
  query r = Some (JString q) -> trim q <> "" ->
  includeResultsOf (withIncludeResults v r) = true ->
  let off := handler supabase timestamp
               (post (withIncludeResults (Some (JBool false)) r)) in
  let on := handler supabase timestamp (post (withIncludeResults v r)) in
  let allResults := merged supabase (trim q) (maxResultsOf r) in
  statusCode (sent off) = 200%Z /\
  resultsOf (responseBody (sent off)) = [] /\
  totalResultsOf (responseBody (sent off)) = Some (List.length allResults) /\
  (exists a,
      analyticsOf (responseBody (sent off)) = Some a /\
      analytics_totalResults a = List.length allResults /\
      forall c, countOf a c
                = List.length (candidatesOf supabase (trim q) (maxResultsOf r) c)) /\
  analyticsOf (responseBody (sent off)) = analyticsOf (responseBody (sent on)) /\
  totalResultsOf (responseBody (sent off))
  = totalResultsOf (responseBody (sent on)) /\
  sent off = emptied (sent on) /\
  issued off = issued on.
Proof.
  intros Hq Hne Hv off on allResults; subst off on allResults.
  rewrite (handler_search supabase timestamp (post _)
             (withIncludeResults (Some (JBool false)) r) q eq_refl eq_refl Hq Hne).
  rewrite (handler_search supabase timestamp (post _)
             (withIncludeResults v r) q eq_refl eq_refl Hq Hne).
  unfold searchRun; rewrite Hv; simpl.
  repeat split.
  eexists; split; [reflexivity|]; split; [reflexivity|].
  intros []; reflexivity.
Qed.

Lemma includeResults_false_empties_results_witness :
  let off := handler sampleStore "2024-01-01T00:00:00.000Z"
               (post (searchFor "acme" (Some (JBool false)) None)) in
  let on := handler sampleStore "2024-01-01T00:00:00.000Z"
              (post (searchFor "acme" (Some (JBool true)) None)) in
  resultsOf (responseBody (sent off)) = [] /\
  totalResultsOf (responseBody (sent off)) = Some 4%nat /\
  sent off = emptied (sent on) /\
  issued off = issued on.
Proof.
  destruct (includeResults_false_empties_results sampleStore
              "2024-01-01T00:00:00.000Z" (searchFor "acme" None None) "acme"
              (Some (JBool true)) eq_refl ltac:(discriminate) eq_refl)
    as (_ & H1 & H2 & _ & _ & _ & H3 & H4).
  repeat split; assumption.
Defined.

(** ** Failing lookups *)






Example companies_down_counts :
  option_map (fun a => (countOf a People, countOf a Companies, countOf a Projects))
    (analyticsOf (responseBody (sent (handler companiesDown "t"
                                       (post (searchFor "acme" None None))))))
  = Some (2, 0, 1)%nat.
Proof. reflexivity. Qed.

(** ** A non-positive [maxResults] *)

(** C10, as stated, fails: with [maxResults = -1] the truncation drops
    only the last candidate, and three of the four candidates come back. *)
Lemma negative_maxResults_keeps_results :
  let resp := sent (handler sampleStore "2024-01-01T00:00:00.000Z"
                      (post (searchFor "acme" None (Some (-1)%Z)))) in
  statusCode resp = 200%Z /\
  totalResultsOf (responseBody resp) = Some 4%nat /\
  map name (resultsOf (responseBody resp))
  = [Some "Acme"; Some "Ada Acme"; Some "Bob Builder"] /\
  resultsOf (responseBody resp) <> [].
Proof.
  repeat split; try (vm_compute; reflexivity).
  vm_compute; discriminate.
Qed.

(** C10, as the code has it. A non-positive [maxResults] is not
    rejected: for a non-blank query the handler answers 200 with
    [success: true] and with [totalResults] and the per-category counts of
    whatever the lookups returned. The [results] are empty when
    [maxResults] is 0; when it is negative they are the ranked candidates
    without their last [-maxResults] entries. *)
Theorem nonpositive_maxResults_accepted supabase timestamp ev r q m :
  httpMethod ev = "POST" -> body ev = Body r ->
  query r = Some (JString q) -> trim q <> "" ->
  maxResults r = Some m -> (m <= 0)%Z ->
  let resp := sent (handler supabase timestamp ev) in
  let allResults := merged supabase (trim q) m in
  let ranked := sort byScoreDescending allResults in
  statusCode resp = 200%Z /\
  (exists a,
      responseBody resp
      = SearchCompleted true (trim q)
          (if includeResultsOf r
           then (if (m =? 0)%Z then []
                 else firstn (List.length ranked - Z.to_nat (- m)) ranked)
           else [])
          a (List.length allResults) /\
      analytics_totalResults a = List.length allResults /\
      forall c, countOf a c = List.length (candidatesOf supabase (trim q) m c)) /\
  (m = 0%Z -> resultsOf (responseBody resp) = []).
Proof.
  intros Hm Hb Hq Hne Hmax Hle resp allResults ranked.
  subst resp allResults ranked.
  rewrite (handler_search _ _ _ _ _ Hm Hb Hq Hne).
  unfold searchRun, maxResultsOf; rewrite Hmax.
  cbn [sent respond statusCode responseBody resultsOf].
  assert (E : forall l : list result,
             slice0 l m
             = if (m =? 0)%Z then []
               else firstn (List.length l - Z.to_nat (- m)) l).
  { intros l; destruct (Z.eqb_spec m 0) as [->|Hnz].
    - apply slice0_zero.
    - apply slice0_negative; lia. }
  split; [reflexivity|]; split.
  - rewrite E.
    eexists; split; [reflexivity|].
    split; [reflexivity | intros []; reflexivity].
  - intros ->; destruct (includeResultsOf r); [apply slice0_zero | reflexivity].
Qed.

Lemma nonpositive_maxResults_accepted_witness :
  let resp := sent (handler sampleStore "2024-01-01T00:00:00.000Z"
                      (post (searchFor "acme" None (Some 0%Z)))) in
  statusCode resp = 200%Z /\
  totalResultsOf (responseBody resp) = Some 4%nat /\
  resultsOf (responseBody resp) = [].
Proof.
  destruct (nonpositive_maxResults_accepted sampleStore
              "2024-01-01T00:00:00.000Z" (post (searchFor "acme" None (Some 0%Z)))
              (searchFor "acme" None (Some 0%Z)) "acme" 0%Z
              eq_refl eq_refl eq_refl ltac:(discriminate) eq_refl ltac:(lia))
    as (H1 & _ & H3).
  split; [exact H1|]; split; [reflexivity | exact (H3 eq_refl)].
Defined.

(** ** Scores in responses *)

Lemma candidate_fields supabase searchTerm maxResults res :
  In res (merged supabase searchTerm maxResults) ->
  relevanceScore res = calculateRelevance searchTerm (scoredFields (item res)).
Proof.
  unfold merged; intros H; apply in_flat_map in H as (c & _ & H).
  unfold candidatesOf in H.
  destruct (lookupFailed supabase searchTerm maxResults c); [destruct H|].
  destruct c; simpl in H; apply in_map_iff in H as (x & <- & _); reflexivity.
Qed.

(** The term the handler scores with is never empty, so every record of a
    search response carries the score the specification's rule gives for
    its fields. *)
Lemma response_scores supabase timestamp ev ok q rs a n :
  responseBody (sent (handler supabase timestamp ev)) = SearchCompleted ok q rs a n ->
  forall res, In res rs ->
    (relevanceScore res == spec_relevance q (scoredFields (item res)))%Q.
Proof.
  destruct (handler_cases supabase timestamp ev)
    as [E|[E|[E|[E|(r & q' & _ & _ & Hne & E)]]]]; rewrite E; simpl;
    try discriminate.
  intros H; injection H as _ <- <- _ _; intros res Hres.
  destruct (includeResultsOf r); [|destruct Hres].
  apply firstn_In in Hres.
  apply (Permutation_in _ (sort_perm _ _)) in Hres.
  rewrite (candidate_fields _ _ _ _ Hres).
  rewrite (RelevanceFacts.calculateRelevance_spec_sum _ _ Hne).
  unfold spec_relevance; ring.
Qed.

End SearchFacts.

(* ------------------------------------------------------------------ *)
(** * More on the relevance score *)

Module ScoringFacts.
Import JsString JsStringFacts Relevance RelevanceFacts Scoring.
Local Open Scope Q_scope.

Lemma weight_pos (index : nat) : 0 < 1 / Qnat (index + 1).
Proof.
  unfold Qdiv; rewrite Qmult_1_l.
  apply Qinv_lt_0_compat.
  unfold Qnat, Qlt; simpl; lia.
Qed.

Lemma no_substring_no_match (v term : string) :
  includes v term = false ->
  String.eqb v term = false /\ startsWith v term = false.
Proof.
  intros Hinc; split.
  - apply String.eqb_neq; intros E.
    rewrite E, includes_unfold in Hinc.
    rewrite <- (append_nil_r term) in Hinc at 1.
    now rewrite startsWith_append in Hinc.
  - rewrite includes_unfold in Hinc.
    now apply orb_false_iff in Hinc as [? _].
Qed.

Lemma matchLevel_no_substring (term text : string) :
  includes (toLowerCase text) term = false -> matchLevel term (Some text) = 0.
Proof.
  intros Hinc; unfold matchLevel.
  destruct (no_substring_no_match _ _ Hinc) as [He Hs].
  destruct (isEmpty text); [reflexivity|].
  cbv zeta; now rewrite He, Hs, Hinc.
Qed.

Lemma matchLevel_values (term : string) (f : field) :
  matchLevel term f = 0 \/ matchLevel term f = 60
  \/ matchLevel term f = 80 \/ matchLevel term f = 100.
Proof.
  destruct f as [text|]; simpl; [|now left].
  destruct (isEmpty text); [now left|].
  destruct (String.eqb _ _); [now do 3 right|].
  destruct (startsWith _ _); [now right; right; left|].
  destruct (includes _ _); [now right; left | now left].
Qed.

Lemma matchLevel_range (term : string) (f : field) :
  0 <= matchLevel term f <= 100.
Proof.
  destruct (matchLevel_values term f) as [E|[E|[E|E]]]; rewrite E; split;
    discriminate.
Qed.

(** One round of the loop adds the field's match level times its weight,
    whatever the term. *)
Lemma visit_level (term : string) (score : Q) (f : field) (index : nat) :
  visit term score f index
  == score + matchLevel term f * (1 / Qnat (index + 1)).
Proof.
  destruct f as [text|]; [|simpl; ring].
  destruct (isEmpty text) eqn:Hne.
  { unfold visit, matchLevel; rewrite Hne; ring. }
  destruct (includes (toLowerCase text) term) eqn:Hinc.
  - unfold visit, matchLevel; rewrite Hne; cbv zeta; rewrite Hinc.
    destruct (String.eqb (toLowerCase text) term); [ring|].
    destruct (startsWith (toLowerCase text) term); ring.
  - rewrite (visit_no_substring _ _ _ _ Hne Hinc).
    rewrite (matchLevel_no_substring _ _ Hinc); ring.
Qed.

Lemma forEach_levels (term : string) (fields : list field) :
  forall (index : nat) (score : Q),
    forEach (visit term) fields index score
    == score + weightedLevels term fields index.
Proof.
  induction fields as [|f fs IH]; intros index score; simpl.
  - ring.
  - rewrite IH, visit_level; ring.
Qed.

Lemma calculateRelevance_levels_sum (searchTerm : string) (fields : list field) :
  calculateRelevance searchTerm fields
  == 0 + weightedLevels (toLowerCase searchTerm) fields 0%nat.
Proof. unfold calculateRelevance; apply forEach_levels. Qed.

Lemma weightedLevels_range (term : string) (fields : list field) :
  forall index,
    0 <= weightedLevels term fields index
    /\ weightedLevels term fields index
       <= 100 * harmonicFrom index (List.length fields).
Proof.
  induction fields as [|f fs IH]; intros index; simpl.
  - split; [apply Qle_refl | discriminate].
  - destruct (IH (S index)) as [Hlo Hhi].
    pose proof (weight_pos index) as Hw.
    destruct (matchLevel_values term f) as [E|[E|[E|E]]]; rewrite E; split; lra.
Qed.

(** X1. For every term and every list of fields, the score is the sum over
    the positions of the field's match level (100 equal, 80 prefix, 60
    substring, 0 otherwise, and 0 for a null or empty field) divided by the
    position: the word-by-word branch of the loop never adds anything. *)
Theorem calculateRelevance_levels (searchTerm : string) (fields : list field) :
  calculateRelevance searchTerm fields
  == weightedLevels (toLowerCase searchTerm) fields 0%nat.
Proof. rewrite calculateRelevance_levels_sum; ring. Qed.

(** X2. A score is never negative and never more than 100 times the sum
    of the weights [1 + 1/2 + ... + 1/n] of the [n] fields scored. *)
Theorem calculateRelevance_range (searchTerm : string) (fields : list field) :
  0 <= calculateRelevance searchTerm fields
  /\ calculateRelevance searchTerm fields
     <= 100 * harmonicFrom 0 (List.length fields).
Proof.
  rewrite calculateRelevance_levels_sum.
  destruct (weightedLevels_range (toLowerCase searchTerm) fields 0) as [Hlo Hhi].
  split; lra.
Qed.

Lemma matchLevel_pos (searchTerm : string) (f : field) :
  0 < matchLevel (toLowerCase searchTerm) f <-> mentions searchTerm f = true.
Proof.
  destruct f as [text|]; simpl; [|split; [intros H; now apply Qlt_irrefl in H | discriminate]].
  destruct (isEmpty text); simpl.
  { split; [intros H; now apply Qlt_irrefl in H | discriminate]. }
  destruct (includes (toLowerCase text) (toLowerCase searchTerm)) eqn:Hinc.
  - split; [reflexivity|intros _].
    destruct (String.eqb _ _); [reflexivity|].
    destruct (startsWith _ _); reflexivity.
  - destruct (no_substring_no_match _ _ Hinc) as [He Hs].
    rewrite He, Hs.
    split; [intros H; now apply Qlt_irrefl in H | discriminate].
Qed.

Lemma weightedLevels_pos (searchTerm : string) (fields : list field) :
  forall index,
    0 < weightedLevels (toLowerCase searchTerm) fields index
    <-> existsb (mentions searchTerm) fields = true.
Proof.
  induction fields as [|f fs IH]; intros index; simpl.
  - split; [intros H; now apply Qlt_irrefl in H | discriminate].
  - pose proof (weight_pos index) as Hw.
    pose proof (weightedLevels_range (toLowerCase searchTerm) fs (S index)) as [Hlo _].
    rewrite orb_true_iff, <- (IH (S index)), <- matchLevel_pos.
    destruct (matchLevel_values (toLowerCase searchTerm) f) as [E|[E|[E|E]]];
      rewrite E; split; intros H; lra.
Qed.

(** X3. A score is positive exactly when one of the fields scored is
    non-empty and contains the term, the case of letters apart; a record
    that matched the store's filter through another column scores 0. *)
Theorem calculateRelevance_positive (searchTerm : string) (fields : list field) :
  0 < calculateRelevance searchTerm fields
  <-> exists text, In (Some text) fields /\ text <> ""
                   /\ includes (toLowerCase text) (toLowerCase searchTerm) = true.
Proof.
  rewrite calculateRelevance_levels_sum, Qplus_0_l, weightedLevels_pos, existsb_exists.
  split.
  - intros ([text|] & Hin & Hm); [|discriminate].
    simpl in Hm; apply andb_true_iff in Hm as [Hne Hinc].
    exists text; repeat split; auto.
    intros ->; discriminate.
  - intros (text & Hin & Hne & Hinc).
    exists (Some text); split; [exact Hin|]; simpl.
    rewrite Hinc; destruct text; [now elim Hne | reflexivity].
Qed.

Lemma toLowerCase_isEmpty (s : string) : isEmpty (toLowerCase s) = isEmpty s.
Proof. destruct s; reflexivity. Qed.

Lemma matchLevel_ignores_case (term : string) (f g : field) :
  sameIgnoringCase f g -> matchLevel term f = matchLevel term g.
Proof.
  destruct f as [a|], g as [b|]; simpl; try tauto.
  intros E.
  rewrite <- (toLowerCase_isEmpty a), <- (toLowerCase_isEmpty b), E.
  reflexivity.
Qed.

(** X4. Scoring ignores the case of letters: two terms with the same
    lower-casing, on two lists of fields that agree position by position up
    to the case of their letters, get the same score. *)
Theorem calculateRelevance_ignores_case
        (searchTerm searchTerm' : string) (fields fields' : list field) :
  toLowerCase searchTerm = toLowerCase searchTerm' ->
  Forall2 sameIgnoringCase fields fields' ->
  calculateRelevance searchTerm fields == calculateRelevance searchTerm' fields'.
Proof.
  intros Ht Hf.
  rewrite !calculateRelevance_levels_sum, <- Ht.
  generalize 0%nat.
  induction Hf as [|f g fs gs Hfg _ IH]; intros index; simpl; [reflexivity|].
  rewrite (matchLevel_ignores_case _ _ _ Hfg).
  specialize (IH (S index)); lra.
Qed.

Lemma calculateRelevance_ignores_case_witness :
  calculateRelevance "ACME" [Some "Acme Corp"; None]
  == calculateRelevance "acme" [Some "ACME CORP"; None].
Proof.
  apply calculateRelevance_ignores_case; [reflexivity|].
  repeat constructor.
Defined.

Lemma weightedLevels_better (term : string) (pre post : list field) (a b : field) :
  matchLevel term a < matchLevel term b ->
  forall index,
    weightedLevels term (pre ++ a :: post) index
    < weightedLevels term (pre ++ b :: post) index.
Proof.
  intros Hab; induction pre as [|f pre IH]; intros index; simpl.
  - pose proof (weight_pos index) as Hw.
    destruct (matchLevel_values term a) as [Ea|[Ea|[Ea|Ea]]];
      destruct (matchLevel_values term b) as [Eb|[Eb|[Eb|Eb]]];
      rewrite Ea, Eb in *; lra.
  - specialize (IH (S index)); lra.
Qed.

(** X5. All else equal, a better match on one field gives a strictly higher
    score, where an equal value is better than a prefix match, a prefix
    match better than a substring match, and a substring match better than
    none. *)
Theorem better_match_scores_higher
        (searchTerm : string) (pre post : list field) (a b : field) :
  matchLevel (toLowerCase searchTerm) a < matchLevel (toLowerCase searchTerm) b ->
  calculateRelevance searchTerm (pre ++ a :: post)
  < calculateRelevance searchTerm (pre ++ b :: post).
Proof.
  intros H; rewrite !calculateRelevance_levels_sum.
  pose proof (weightedLevels_better _ pre post a b H 0%nat); lra.
Qed.

Lemma better_match_scores_higher_witness :
  calculateRelevance "acme" [Some "The Acme Group"; Some "Boston"]
  < calculateRelevance "acme" [Some "ACME"; Some "Boston"].
Proof.
  apply (better_match_scores_higher "acme" [] [Some "Boston"]
           (Some "The Acme Group") (Some "ACME")).
  reflexivity.
Defined.

(** X6. With three fields scored, a record whose first field equals the
    term (case apart) scores strictly more than any record whose first
    field does not contain it, whatever the other fields are. *)
Theorem first_field_exact_dominates
        (searchTerm name1 : string) (name2 a1 b1 a2 b2 : field) :
  name1 <> "" ->
  toLowerCase name1 = toLowerCase searchTerm ->
  mentions searchTerm name2 = false ->
  calculateRelevance searchTerm [name2; a2; b2]
  < calculateRelevance searchTerm [Some name1; a1; b1].
Proof.
  intros Hne Heq Hno.
  rewrite !calculateRelevance_levels_sum.
  assert (E1 : matchLevel (toLowerCase searchTerm) (Some name1) = 100).
  { simpl; destruct name1; [now elim Hne|]. simpl isEmpty; cbv iota.
    now rewrite Heq, String.eqb_refl. }
  assert (E2 : matchLevel (toLowerCase searchTerm) name2 = 0).
  { destruct (matchLevel_values (toLowerCase searchTerm) name2) as [E|[E|[E|E]]];
      [exact E| | |];
      (assert (P : 0 < matchLevel (toLowerCase searchTerm) name2)
        by (rewrite E; reflexivity));
      apply matchLevel_pos in P; congruence. }
  pose proof (weightedLevels_range (toLowerCase searchTerm) [a1; b1] 1) as [Hlo _].
  pose proof (weightedLevels_range (toLowerCase searchTerm) [a2; b2] 1) as [_ Hhi].
  cbn [weightedLevels harmonicFrom List.length] in *.
  rewrite E1, E2.
  assert (W0 : 1 / Qnat (0 + 1) == 1) by reflexivity.
  assert (W1 : 1 / Qnat (1 + 1) == 1 # 2) by reflexivity.
  assert (W2 : 1 / Qnat (2 + 1) == 1 # 3) by reflexivity.
  set (w0 := 1 / Qnat (0 + 1)) in *.
  set (w1 := 1 / Qnat (1 + 1)) in *.
  set (w2 := 1 / Qnat (2 + 1)) in *.
  lra.
Qed.

Lemma first_field_exact_dominates_witness :
  calculateRelevance "acme" [Some "Tower"; Some "acme"; Some "acme"]
  < calculateRelevance "acme" [Some "Acme"; None; None].
Proof.
  apply (first_field_exact_dominates "acme" "Acme"); [discriminate | reflexivity..].
Defined.

End ScoringFacts.

(* ------------------------------------------------------------------ *)
(** * More on the handler *)

Module HandlerFacts.
Import JsString JsStringFacts Relevance Search RankingFacts SearchFacts Requests.

(** ** White space around the query *)

Lemma trimStart_head (s : string) :
  trimStart s = ""
  \/ exists c t, trimStart s = String c t /\ isWhiteSpace c = false.
Proof.
  induction s as [|c s IH]; simpl; [now left|].
  destruct (isWhiteSpace c) eqn:E; [exact IH|].
  right; exists c, s; split; [reflexivity | exact E].
Qed.

Lemma trimEnd_head (c : ascii) (t : string) :
  isWhiteSpace c = false -> exists t', trimEnd (String c t) = String c t'.
Proof.
  intros E; simpl; rewrite E.
  destruct (trimEnd t); eauto.
Qed.

Lemma trimEnd_idempotent (s : string) : trimEnd (trimEnd s) = trimEnd s.
Proof.
  induction s as [|c s IH]; simpl; [reflexivity|].
  destruct (trimEnd s) as [|d u] eqn:E.
  - destruct (isWhiteSpace c) eqn:W; simpl; [reflexivity | now rewrite W].
  - change (trimEnd (String c (String d u))) with
      (match trimEnd (String d u) with
       | EmptyString => if isWhiteSpace c then EmptyString else String c EmptyString
       | t => String c t
       end).
    now rewrite IH.
Qed.

Lemma trim_idempotent (s : string) : trim (trim s) = trim s.
Proof.
  unfold trim.
  destruct (trimStart_head s) as [E|(c & t & E & W)]; rewrite E; [reflexivity|].
  destruct (trimEnd_head c t W) as [t' E'].
  assert (S : trimStart (trimEnd (String c t)) = trimEnd (String c t)).
  { rewrite E'; simpl; now rewrite W. }
  rewrite S; apply trimEnd_idempotent.
Qed.

(** X7. White space around the query does not matter: a request and the
    same request with its query trimmed get the same response and send the
    same lookups. In particular the [query] a search response echoes can be
    sent back as it is. *)
Theorem query_whitespace_irrelevant supabase timestamp (r : request) (q : string) :
  handler supabase timestamp (post (withQuery q r))
  = handler supabase timestamp (post (withQuery (trim q) r)).
Proof.
  destruct (String.eqb_spec (trim q) "") as [E|E].
  - rewrite (handler_blank_query supabase timestamp (post (withQuery q r))
               (withQuery q r) q eq_refl eq_refl eq_refl E).
    rewrite E; reflexivity.
  - rewrite (handler_search supabase timestamp (post (withQuery q r))
               (withQuery q r) q eq_refl eq_refl eq_refl E).
    assert (E' : trim (trim q) <> "") by now rewrite trim_idempotent.
    rewrite (handler_search supabase timestamp (post (withQuery (trim q) r))
               (withQuery (trim q) r) (trim q) eq_refl eq_refl eq_refl E').
    now rewrite trim_idempotent.
Qed.

(** ** The shape of every invocation *)

(** X8. Whatever the event and the store, the response has one of the
    statuses 200, 400, 405, 500 and carries the CORS headers; lookups are
    sent exactly when the answer is a search response, and then they are the
    three category lookups, in order, for one term and one limit. *)
Theorem invocation_shape supabase timestamp ev :
  let out := handler supabase timestamp ev in
  In (statusCode (sent out)) [200; 400; 405; 500]%Z
  /\ responseHeaders (sent out) = headers
  /\ (issued out = []
      \/ exists searchTerm maxResults,
           issued out = [ peopleLookup searchTerm maxResults;
                          companiesLookup searchTerm maxResults;
                          projectsLookup searchTerm maxResults ])
  /\ (issued out <> [] <-> totalResultsOf (responseBody (sent out)) <> None).
Proof.
  intros out; subst out.
  destruct (handler_cases supabase timestamp ev)
    as [E|[E|[E|[E|(r & q & _ & _ & _ & E)]]]]; rewrite E; simpl;
    repeat split; auto; try tauto; try congruence; try discriminate.
  right; eauto.
Qed.

(** ** What comes back *)

Lemma slice0_length {A} (l : list A) (e : Z) :
  (0 <= e)%Z ->
  Z.of_nat (List.length (slice0 l e)) = Z.min e (Z.of_nat (List.length l)).
Proof.
  intros He; unfold slice0.
  destruct (e <? 0)%Z eqn:E; [apply Z.ltb_lt in E; lia|].
  rewrite length_firstn; lia.
Qed.

(** X9. For a non-blank query, results included and a [maxResults] that
    is not negative, the number of results is exactly the smaller of
    [maxResults] and [totalResults]. *)
Theorem results_count supabase timestamp ev r q :
  httpMethod ev = "POST" -> body ev = Body r ->
  query r = Some (JString q) -> trim q <> "" ->
  includeResultsOf r = true -> (0 <= maxResultsOf r)%Z ->
  let resp := sent (handler supabase timestamp ev) in
  exists totalResults,
    totalResultsOf (responseBody resp) = Some totalResults /\
    Z.of_nat (List.length (resultsOf (responseBody resp)))
    = Z.min (maxResultsOf r) (Z.of_nat totalResults).
Proof.
  intros Hm Hb Hq Hne Hinc Hpos resp; subst resp.
  rewrite (handler_search _ _ _ _ _ Hm Hb Hq Hne); simpl.
  rewrite Hinc; eexists; split; [reflexivity|].
  now rewrite (slice0_length _ _ Hpos), sort_length.
Qed.

Lemma results_count_witness :
  let resp := sent (handler sampleStore "2024-01-01T00:00:00.000Z"
                      (post (searchFor "acme" None (Some 1%Z)))) in
  exists totalResults,
    totalResultsOf (responseBody resp) = Some totalResults /\
    Z.of_nat (List.length (resultsOf (responseBody resp)))
    = Z.min 1 (Z.of_nat totalResults).
Proof.
  apply (results_count sampleStore _ _ (searchFor "acme" None (Some 1%Z)) "acme");
    try reflexivity; discriminate.
Defined.

Lemma descending_app (l1 l2 : list result) :
  descending (l1 ++ l2) ->
  forall x y, In x l1 -> In y l2 -> (relevanceScore y <= relevanceScore x)%Q.
Proof.
  unfold descending; induction l1 as [|a l1 IH]; simpl; intros H x y Hx Hy;
    [destruct Hx|].
  inversion H as [|? ? Hs Ha]; subst.
  destruct Hx as [<-|Hx]; [|eauto].
  rewrite Forall_forall in Ha; apply Ha, in_or_app; now right.
Qed.

(** X10. The results returned are the best candidates: the merged
    candidates split into the results and the records left out, and no
    record left out scores more than a record returned. *)
Theorem results_are_top supabase timestamp ev r q :
  httpMethod ev = "POST" -> body ev = Body r ->
  query r = Some (JString q) -> trim q <> "" ->
  includeResultsOf r = true ->
  let results := resultsOf (responseBody (sent (handler supabase timestamp ev))) in
  exists leftOut,
    Permutation (merged supabase (trim q) (maxResultsOf r)) (results ++ leftOut) /\
    forall res out, In res results -> In out leftOut ->
      (relevanceScore out <= relevanceScore res)%Q.
Proof.
  intros Hm Hb Hq Hne Hinc results; subst results.
  rewrite (handler_search _ _ _ _ _ Hm Hb Hq Hne); simpl; rewrite Hinc.
  set (all := merged supabase (trim q) (maxResultsOf r)).
  unfold slice0.
  set (k := Z.to_nat _).
  exists (skipn k (sort byScoreDescending all)); split.
  - rewrite firstn_skipn; symmetry; apply sort_perm.
  - apply descending_app; rewrite firstn_skipn; apply sort_descending.
Qed.

Lemma results_are_top_witness :
  let results :=
    resultsOf (responseBody (sent (handler sampleStore "2024-01-01T00:00:00.000Z"
                                     (post (searchFor "acme" None (Some 2%Z)))))) in
  exists leftOut,
    Permutation (merged sampleStore "acme" 2) (results ++ leftOut) /\
    forall res out, In res results -> In out leftOut ->
      (relevanceScore out <= relevanceScore res)%Q.
Proof.
  apply (results_are_top sampleStore _ _ (searchFor "acme" None (Some 2%Z)) "acme");
    try reflexivity; discriminate.
Defined.

Lemma results_in_merged supabase timestamp ev r q res :
  httpMethod ev = "POST" -> body ev = Body r ->
  query r = Some (JString q) -> trim q <> "" ->
  In res (resultsOf (responseBody (sent (handler supabase timestamp ev)))) ->
  exists c, In res (candidatesOf supabase (trim q) (maxResultsOf r) c)
            /\ lookupFailed supabase (trim q) (maxResultsOf r) c = false.
Proof.
  intros Hm Hb Hq Hne.
  rewrite (handler_search _ _ _ _ _ Hm Hb Hq Hne); simpl.
  destruct (includeResultsOf r); [|intros []].
  intros H; apply firstn_In in H.
  apply (Permutation_in _ (sort_perm _ _)) in H.
  unfold merged in H; apply in_flat_map in H as (c & _ & H).
  exists c; split; [exact H|].
  unfold candidatesOf in H.
  destruct (lookupFailed supabase (trim q) (maxResultsOf r) c);
    [destruct H | reflexivity].
Qed.

(** X11. Every record of a search response was built from a row that the
    lookup of its own category returned, and that lookup reported no error
    (the rows of a reply with an error are never used): persons carry
    [type] "person" and the row's name, companies "company" and the row's
    name, projects "project" and the row's title as [name]. *)
Theorem results_come_from_store supabase timestamp ev r q res :
  httpMethod ev = "POST" -> body ev = Body r ->
  query r = Some (JString q) -> trim q <> "" ->
  In res (resultsOf (responseBody (sent (handler supabase timestamp ev)))) ->
  comesFrom supabase (trim q) (maxResultsOf r) res.
Proof.
  intros Hm Hb Hq Hne Hres.
  destruct (results_in_merged _ _ _ _ _ _ Hm Hb Hq Hne Hres) as (c & H & Hok).
  unfold candidatesOf in H; rewrite Hok in H.
  destruct c; simpl in H, Hok; apply in_map_iff in H as (x & <- & Hx);
    unfold comesFrom; simpl; auto.
Qed.

Lemma results_come_from_store_witness :
  comesFrom sampleStore "acme" 10 (companyResult "acme" acme).
Proof.
  apply (results_come_from_store sampleStore "2024-01-01T00:00:00.000Z"
           (post (searchFor "acme" None None)) (searchFor "acme" None None) "acme");
    try reflexivity; [discriminate|].
  vm_compute; left; reflexivity.
Defined.

Lemma append_nonempty_r (a b : string) : b <> "" -> a ++ b <> "".
Proof. destruct a; simpl; [auto | discriminate]. Qed.

Lemma orElse_keeps (f : field) (d text : string) :
  f = Some text -> text <> "" -> orElse f d = text.
Proof. intros -> H; simpl; destruct text; [now elim H | reflexivity]. Qed.

Lemma orElse_nonempty (f : field) (d : string) : d <> "" -> orElse f d <> "".
Proof.
  intros Hd; destruct f as [[|c s]|]; simpl; auto; discriminate.
Qed.

(** X12. Every record of a search response has a non-empty description:
    the row's own description when it has a non-empty one (companies and
    projects), a synthesized one otherwise. *)
Theorem results_described supabase timestamp ev r q res :
  httpMethod ev = "POST" -> body ev = Body r ->
  query r = Some (JString q) -> trim q <> "" ->
  In res (resultsOf (responseBody (sent (handler supabase timestamp ev)))) ->
  description res <> ""
  /\ forall text, ownDescription (item res) = Some text -> text <> "" ->
                  description res = text.
Proof.
  intros Hm Hb Hq Hne Hres.
  destruct (results_in_merged _ _ _ _ _ _ Hm Hb Hq Hne Hres) as (c & H & Hok).
  unfold candidatesOf in H; rewrite Hok in H.
  destruct c; simpl in H; apply in_map_iff in H as (x & <- & _); simpl.
  - split; [|discriminate].
    apply append_nonempty_r; discriminate.
  - split.
    + apply orElse_nonempty, append_nonempty_r; discriminate.
    + intros text E Ht; now apply orElse_keeps.
  - split.
    + apply orElse_nonempty, append_nonempty_r; discriminate.
    + intros text E Ht; now apply orElse_keeps.
Qed.

Lemma results_described_witness :
  description (projectResult "acme" tower) <> ""
  /\ forall text, ownDescription (item (projectResult "acme" tower)) = Some text ->
                  text <> "" -> description (projectResult "acme" tower) = text.
Proof.
  apply (results_described sampleStore "2024-01-01T00:00:00.000Z"
           (post (searchFor "acme" None None)) (searchFor "acme" None None) "acme");
    try reflexivity; [discriminate|].
  vm_compute; do 3 right; left; reflexivity.
Defined.

(** ** Failures the caller cannot see *)

Lemma onReply_emptyIfFailed {A} (g : A -> result) (r : reply A) :
  onReply g (emptyIfFailed r) = onReply g r.
Proof.
  unfold emptyIfFailed, failed, onReply.
  destruct (error r) eqn:E; simpl; [reflexivity | now rewrite E].
Qed.

Lemma search_maskErrors supabase timestamp ev tr :
  search (maskErrors supabase) timestamp ev tr = search supabase timestamp ev tr.
Proof.
  unfold search, bind.
  destruct (parseAndDestructure (body ev) tr) as [[r|e] tr1]; [|reflexivity].
  destruct ((if jsNot (query r) then ret true
             else fun tr0 =>
                    match callTrim (query r) tr0 with
                    | (Return a, tr') => ret (String.length a =? 0)%nat tr'
                    | (Throw e, tr') => (Throw e, tr')
                    end) tr1) as [[[|]|e] tr2]; try reflexivity.
  destruct (callTrim (query r) tr2) as [[searchTerm|e] tr3]; [|reflexivity].
  unfold runLookup, maskErrors; simpl.
  now rewrite !onReply_emptyIfFailed.
Qed.

(** X13. A lookup that fails cannot be told from one that finds nothing:
    against the store whose failing lookups return no row and no error
    instead, every event gets the same response and sends the same
    lookups. *)
Theorem failures_masked supabase timestamp ev :
  handler (maskErrors supabase) timestamp ev = handler supabase timestamp ev.
Proof.
  unfold handler, tryCatch.
  now rewrite search_maskErrors.
Qed.

Example companies_down_looks_empty :
  sent (handler companiesDown "t" (post (searchFor "acme" None None)))
  = sent (handler (maskErrors companiesDown) "t" (post (searchFor "acme" None None))).
Proof. reflexivity. Qed.

(** ** A query that is not a string *)

(** X14. A [query] that is present but not a string is answered without
    any lookup: 400, as a missing query, when it is falsy ([null], [false],
    0), and 500 when it is truthy ([true], another number, an array, an
    object), since it has no [trim] method. *)
Theorem non_string_query supabase timestamp (r : request) (v : json) :
  isString v = false ->
  handler supabase timestamp (post (withQueryValue v r))
  = if jsNot (Some v) then queryRequired else internalError.
Proof.
  intros Hv.
  destruct (jsNot (Some v)) eqn:E.
  - now apply (handler_falsy_query _ _ _ (withQueryValue v r)).
  - apply (handler_query_not_string _ _ _ (withQueryValue v r)); auto.
    intros q; simpl; intros H; injection H as ->; discriminate.
Qed.

Lemma non_string_query_witness :
  handler sampleStore "2024-01-01T00:00:00.000Z"
    (post (withQueryValue (JNumber 42) (searchFor "" None None)))
  = internalError
  /\ handler sampleStore "2024-01-01T00:00:00.000Z"
       (post (withQueryValue JNull (searchFor "" None None)))
     = queryRequired.
Proof.
  split.
  - exact (non_string_query sampleStore _ (searchFor "" None None) (JNumber 42) eq_refl).
  - exact (non_string_query sampleStore _ (searchFor "" None None) JNull eq_refl).
Defined.

(** ** How much is fetched *)

Lemma candidatesOf_le_returned supabase searchTerm maxResults c :
  (List.length (candidatesOf supabase searchTerm maxResults c)
   <= List.length (returnedBy supabase searchTerm maxResults c))%nat.
Proof.
  unfold candidatesOf.
  destruct (lookupFailed supabase searchTerm maxResults c); simpl; lia.
Qed.

Lemma returnedBy_within_limit supabase searchTerm maxResults c :
  honoursLimit supabase ->
  (Z.of_nat (List.length (returnedBy supabase searchTerm maxResults c))
   <= Z.max (perCategoryLimit maxResults) 0)%Z.
Proof.
  intros (Hp & Hc & Hj); destruct c; simpl; rewrite length_map.
  - apply (Hp (peopleLookup searchTerm maxResults)).
  - apply (Hc (companiesLookup searchTerm maxResults)).
  - apply (Hj (projectsLookup searchTerm maxResults)).
Qed.

(** X15. Against a store that returns no more rows than the limit asked
    for, a search with a positive [maxResults] has at most
    [3 * ceil(maxResults / 3)] candidates, so [totalResults] never exceeds
    [maxResults + 2]. *)
Theorem total_within_fetch_limits supabase timestamp ev r q :
  httpMethod ev = "POST" -> body ev = Body r ->
  query r = Some (JString q) -> trim q <> "" ->
  honoursLimit supabase -> (0 < maxResultsOf r)%Z ->
  exists totalResults,
    totalResultsOf (responseBody (sent (handler supabase timestamp ev)))
    = Some totalResults /\
    (Z.of_nat totalResults <= 3 * perCategoryLimit (maxResultsOf r))%Z /\
    (Z.of_nat totalResults <= maxResultsOf r + 2)%Z.
Proof.
  intros Hm Hb Hq Hne Hlim Hpos.
  rewrite (handler_search _ _ _ _ _ Hm Hb Hq Hne); simpl.
  eexists; split; [reflexivity|].
  pose proof (perCategoryLimit_ceiling (maxResultsOf r)) as Hceil.
  assert (Hsum : (Z.of_nat (List.length (merged supabase (trim q) (maxResultsOf r)))
                  <= 3 * perCategoryLimit (maxResultsOf r))%Z).
  { unfold merged; cbn [flat_map]; rewrite !length_app; cbn [List.length].
    pose proof (candidatesOf_le_returned supabase (trim q) (maxResultsOf r) People).
    pose proof (candidatesOf_le_returned supabase (trim q) (maxResultsOf r) Companies).
    pose proof (candidatesOf_le_returned supabase (trim q) (maxResultsOf r) Projects).
    pose proof (returnedBy_within_limit supabase (trim q) (maxResultsOf r) People Hlim).
    pose proof (returnedBy_within_limit supabase (trim q) (maxResultsOf r) Companies Hlim).
    pose proof (returnedBy_within_limit supabase (trim q) (maxResultsOf r) Projects Hlim).
    lia. }
  split; [exact Hsum | lia].
Qed.

Lemma limitedStore_honoursLimit : honoursLimit limitedStore.
Proof.
  repeat split; intros q; unfold rowsOf; simpl; rewrite length_firstn; lia.
Qed.

Lemma total_within_fetch_limits_witness :
  exists totalResults,
    totalResultsOf
      (responseBody (sent (handler limitedStore "2024-01-01T00:00:00.000Z"
                             (post (searchFor "acme" None (Some 2%Z))))))
    = Some totalResults /\
    (Z.of_nat totalResults <= 3 * perCategoryLimit 2)%Z /\
    (Z.of_nat totalResults <= 2 + 2)%Z.
Proof.
  apply (total_within_fetch_limits limitedStore _ _
           (searchFor "acme" None (Some 2%Z)) "acme");
    try reflexivity; [discriminate | apply limitedStore_honoursLimit].
Defined.

(** ** The range of the scores returned *)

(** X16. Every record the handler returns, for any event and any store,
    has a score between 0 and [100 * (1 + 1/2 + 1/3) = 550/3]: three fields
    are scored per record. *)
Theorem response_score_range supabase timestamp ev res :
  In res (resultsOf (responseBody (sent (handler supabase timestamp ev)))) ->
  (0 <= relevanceScore res <= 550 # 3)%Q.
Proof.
  destruct (handler_cases supabase timestamp ev)
    as [E|[E|[E|[E|(r & q & _ & _ & _ & E)]]]]; rewrite E; simpl;
    try (intros []).
  destruct (includeResultsOf r); [|intros []].
  intros H; apply firstn_In in H.
  apply (Permutation_in _ (sort_perm _ _)) in H.
  rewrite (candidate_fields _ _ _ _ H).
  rewrite ScoringFacts.calculateRelevance_levels_sum.
  pose proof (ScoringFacts.weightedLevels_range
                (toLowerCase (trim q)) (scoredFields (item res)) 0) as [Hlo Hhi].
  assert (L : List.length (scoredFields (item res)) = 3%nat)
    by (destruct (item res); reflexivity).
  rewrite L in Hhi.
  assert (Hh : (Scoring.harmonicFrom 0 3 == 11 # 6)%Q) by reflexivity.
  rewrite Hh in Hhi.
  split; lra.
Qed.

Lemma response_score_range_witness :
  (0 <= relevanceScore (companyResult "acme" acme) <= 550 # 3)%Q.
Proof.
  apply (response_score_range sampleStore "2024-01-01T00:00:00.000Z"
           (post (searchFor "acme" None None))).
  vm_compute; left; reflexivity.
Defined.

End HandlerFacts.

(* ------------------------------------------------------------------ *)
(** * Facts about the navigation provider *)

Module NavigationFacts.
Import JsString JsStringFacts Navigation RankingFacts.

Lemma slice0_drop_last {A} (l : list A) (x : A) :
  Search.slice0 (l ++ [x]) (-1) = l.
Proof.
  rewrite slice0_negative by lia.
  assert (H : forall n, n = List.length l -> firstn n (l ++ [x]) = l).
  { intros n ->; rewrite firstn_app, Nat.sub_diag, firstn_all; simpl.
    apply app_nil_r. }
  apply H; rewrite length_app; simpl; lia.
Qed.

Lemma nth_error_last {A} (l : list A) (x : A) :
  nth_error (l ++ [x]) (List.length (l ++ [x]) - 1) = Some x.
Proof.
  rewrite length_app; simpl.
  replace (List.length l + 1 - 1)%nat with (List.length l) by lia.
  rewrite nth_error_app2 by lia.
  now rewrite Nat.sub_diag.
Qed.

Lemma navigateBack_spec (trail : list Breadcrumb) (b c : Breadcrumb)
      (s : NavigationState) :
  breadcrumbs s = (trail ++ [b; c])%list ->
  navigateBack s
  = Some {| currentView := view b;
            entityId := crumbEntityId b;
            entityType := None;
            breadcrumbs := (trail ++ [b])%list |}.
Proof.
  intros E; unfold navigateBack; rewrite E.
  replace (trail ++ [b; c])%list with ((trail ++ [b]) ++ [c])%list
    by now rewrite <- app_assoc.
  rewrite slice0_drop_last.
  now rewrite nth_error_last.
Qed.

Lemma navigateBack_single (s : NavigationState) :
  (List.length (breadcrumbs s) <= 1)%nat -> navigateBack s = None.
Proof.
  intros H; unfold navigateBack.
  destruct (breadcrumbs s) as [|b [|c l]]; simpl in H; try lia; reflexivity.
Qed.

(** X17. [navigateBack] throws exactly when at most one breadcrumb is
    left; in particular right after the provider starts or after
    [navigateToDashboard]. *)
Theorem navigateBack_throws_iff (s : NavigationState) :
  navigateBack s = None <-> (List.length (breadcrumbs s) <= 1)%nat.
Proof.
  split; [|apply navigateBack_single].
  intros H.
  destruct (breadcrumbs s) as [|b l] eqn:E; [simpl; lia|].
  destruct l as [|c l]; [simpl; lia|].
  exfalso.
  destruct (exists_last (l := b :: c :: l) ltac:(discriminate)) as (l1 & z & E1).
  destruct (exists_last (l := l1)) as (l2 & y & E2).
  { intros ->; discriminate. }
  subst l1; rewrite <- app_assoc in E1; simpl in E1.
  rewrite E1 in E.
  rewrite (navigateBack_spec _ _ _ _ E) in H; discriminate.
Qed.

Lemma consistent_navigateTo v id ty lbl s :
  consistent s -> consistent (navigateTo v id ty lbl s).
Proof.
  intros [_ Hhd]; split; simpl.
  - eauto.
  - destruct (breadcrumbs s); [discriminate | exact Hhd].
Qed.

Lemma consistent_initial : consistent initialState.
Proof. split; [exists [], "Dashboard" | ]; reflexivity. Qed.

Lemma consistent_navigateBack s s' :
  consistent s -> navigateBack s = Some s' -> consistent s'.
Proof.
  intros [_ Hhd] H.
  destruct (Nat.le_gt_cases (List.length (breadcrumbs s)) 1) as [L|L].
  { rewrite (navigateBack_single _ L) in H; discriminate. }
  destruct (breadcrumbs s) as [|b0 l] eqn:E; [simpl in L; lia|].
  destruct l as [|c0 l]; [simpl in L; lia|].
  destruct (exists_last (l := b0 :: c0 :: l) ltac:(discriminate)) as (l1 & z & E1).
  destruct (exists_last (l := l1)) as (l2 & y & E2).
  { intros ->; discriminate. }
  subst l1; rewrite <- app_assoc in E1; simpl in E1.
  rewrite E1 in E.
  rewrite (navigateBack_spec _ _ _ _ E) in H; injection H as <-.
  split; simpl.
  - exists l2, (label y); now destruct y.
  - rewrite <- Hhd, E1.
    destruct l2; reflexivity.
Qed.

Lemma consistent_step a s s' : consistent s -> step a s = Some s' -> consistent s'.
Proof.
  intros Hs H; destruct a; simpl in H;
    try (injection H as <-;
         first [ apply consistent_initial | now apply consistent_navigateTo ]).
  eapply consistent_navigateBack; eauto.
Qed.

(** X18. However the navigation functions are called, as long as none
    throws, the state shows the view and the entity of its last breadcrumb
    and the trail starts with the Dashboard breadcrumb. *)
Theorem reachable_consistent (l : list action) (s : NavigationState) :
  steps l initialState = Some s -> consistent s.
Proof.
  generalize consistent_initial; generalize initialState.
  induction l as [|a l IH]; simpl; intros s0 H0 H.
  - now injection H as <-.
  - destruct (step a s0) as [s1|] eqn:E; [|discriminate].
    apply (IH s1); [eapply consistent_step; eauto | exact H].
Qed.

Lemma reachable_consistent_witness :
  consistent
    (navigateToProject "j1" None (navigateToPerson "p1" (Some "Ada") initialState)).
Proof.
  apply (reachable_consistent [NavigateToPerson "p1" (Some "Ada");
                                NavigateToProject "j1" None]).
  reflexivity.
Defined.

(** X19. From a state that shows its last breadcrumb, going somewhere and
    back restores the view, the entity and the trail; only the entity type
    is not restored: it is absent after [navigateBack]. *)
Theorem navigateBack_undoes_navigateTo v id ty lbl (s : NavigationState) :
  consistent s ->
  navigateBack (navigateTo v id ty lbl s) = Some (withoutEntityType s).
Proof.
  intros [(trail & l0 & E) _].
  erewrite navigateBack_spec.
  2:{ simpl; rewrite E, <- app_assoc; reflexivity. }
  unfold withoutEntityType; simpl; now rewrite E.
Qed.

Lemma navigateBack_undoes_navigateTo_witness :
  navigateBack (navigateTo Company (Some "c1") (Some "company") None
                  (navigateToPerson "p1" None initialState))
  = Some (withoutEntityType (navigateToPerson "p1" None initialState)).
Proof.
  apply navigateBack_undoes_navigateTo.
  apply consistent_navigateTo, consistent_initial.
Defined.

Lemma orDefault_nonempty (s : option string) (d : string) :
  d <> "" -> orDefault s d <> "".
Proof. intros Hd; destruct s as [[|c t]|]; simpl; auto; discriminate. Qed.

Lemma defaultLabel_nonempty v id : defaultLabel v id <> "".
Proof. unfold defaultLabel; destruct v; discriminate. Qed.

Lemma labelled_navigateTo v id ty lbl s :
  labelled s -> labelled (navigateTo v id ty lbl s).
Proof.
  intros H; unfold labelled; simpl.
  apply Forall_app; split; [exact H|].
  constructor; [|constructor]; simpl.
  apply orDefault_nonempty, defaultLabel_nonempty.
Qed.

Lemma labelled_navigateBack s s' :
  labelled s -> navigateBack s = Some s' -> labelled s'.
Proof.
  unfold labelled, navigateBack; intros H E.
  destruct (nth_error _ _); [|discriminate].
  injection E as <-; simpl.
  unfold Search.slice0.
  rewrite Forall_forall in *; intros crumb Hc.
  apply H; eapply firstn_In; eauto.
Qed.

(** X20. No breadcrumb ever has an empty label: a missing or empty label
    is replaced by the capitalized view name followed by a space and, for an
    entity, [#] and its id. *)
Theorem labels_never_empty (l : list action) (s : NavigationState) :
  steps l initialState = Some s ->
  Forall (fun b => label b <> "") (breadcrumbs s).
Proof.
  assert (H0 : labelled initialState) by (repeat constructor; discriminate).
  revert H0; generalize initialState.
  induction l as [|a l IH]; simpl; intros s0 H0 H.
  - now injection H as <-.
  - destruct (step a s0) as [s1|] eqn:E; [|discriminate].
    apply (IH s1); [|exact H].
    destruct a; simpl in E;
      try (injection E as <-;
           first [ now apply labelled_navigateTo
                 | repeat constructor; discriminate ]).
    eapply labelled_navigateBack; eauto.
Qed.

Lemma labels_never_empty_witness :
  Forall (fun b => label b <> "")
    (breadcrumbs (navigateTo Golf None None (Some "") initialState)).
Proof.
  apply (labels_never_empty [NavigateTo Golf None None (Some "")]).
  reflexivity.
Defined.

Example golf_default_label :
  map label (breadcrumbs (navigateTo Golf None None None initialState))
  = ["Dashboard"; "Golf "].
Proof. reflexivity. Qed.

Example person_default_label :
  map label (breadcrumbs (navigateTo Person (Some "p1") None None initialState))
  = ["Dashboard"; "Person #p1"].
Proof. reflexivity. Qed.

End NavigationFacts.

(* ------------------------------------------------------------------ *)
(** * Facts about the voice transcription handler *)

Module VoiceFacts.
Import JsString JsStringFacts Voice.

(** ** The services *)

Lemma transcribeWithOpenAI_run e net audioBuffer tr :
  transcribeWithOpenAI e net audioBuffer tr
  = (openaiAnswer e net audioBuffer, (tr ++ [OpenAI])%list).
Proof.
  unfold openaiAnswer, transcribeWithOpenAI, tryCatch, bind, fetch.
  destruct (openai net _ audioBuffer) as [m|r]; simpl; [reflexivity|].
  destruct (ok r); simpl; destruct (text r); reflexivity.
Qed.

Lemma transcribeWithDeepgram_run e net audioBuffer tr :
  transcribeWithDeepgram e net audioBuffer tr
  = (deepgramAnswer e net audioBuffer, (tr ++ [Deepgram])%list).
Proof.
  unfold deepgramAnswer, transcribeWithDeepgram, bind, fetch.
  destruct (deepgram net _ audioBuffer) as [m|r]; simpl; [reflexivity|].
  destruct (ok r); simpl.
  - destruct (json r) as [[| |]|]; reflexivity.
  - destruct (text r); reflexivity.
Qed.

(** The transcription step, by cases on the keys and on the answers. *)
Lemma transcribe_run e net audioBuffer tr :
  transcribe e net audioBuffer tr =
  if present (OPENAI_API_KEY e) then
    match openaiAnswer e net audioBuffer with
    | Return t => (Return t, (tr ++ [OpenAI])%list)
    | Throw m =>
        if present (DEEPGRAM_API_KEY e) then
          match deepgramAnswer e net audioBuffer with
          | Return t => (Return t, (tr ++ [OpenAI; Deepgram])%list)
          | Throw _ =>
              (Throw "All transcription services failed",
               (tr ++ [OpenAI; Deepgram])%list)
          end
        else (Throw m, (tr ++ [OpenAI])%list)
    end
  else if present (DEEPGRAM_API_KEY e) then
    (deepgramAnswer e net audioBuffer, (tr ++ [Deepgram])%list)
  else (Return "", tr).
Proof.
  unfold transcribe, tryCatch.
  destruct (present (OPENAI_API_KEY e)).
  - rewrite transcribeWithOpenAI_run.
    destruct (openaiAnswer e net audioBuffer); [reflexivity|].
    destruct (present (DEEPGRAM_API_KEY e)); [|reflexivity].
    rewrite transcribeWithDeepgram_run, <- app_assoc.
    destruct (deepgramAnswer e net audioBuffer); reflexivity.
  - destruct (present (DEEPGRAM_API_KEY e)); [|reflexivity].
    rewrite transcribeWithDeepgram_run.
    destruct (deepgramAnswer e net audioBuffer); reflexivity.
Qed.

(** A request that passes the checks reaches the transcription step. *)
Lemma handler_wellFormed e net decode now ev :
  configured e = true -> wellFormed ev = true ->
  handler e net decode now ev =
  let audioBuffer := decode (isBase64Encoded ev) (valueOf (body ev)) in
  match transcribe e net audioBuffer [] with
  | (Return t, tr) =>
      {| sent :=
           respond 200
             (Transcribed true (trim t)
                {| audioSizeBytes := List.length audioBuffer;
                   transcriptLength := String.length (trim t);
                   serviceUsed :=
                     if present (OPENAI_API_KEY e) then "openai" else "deepgram";
                   timestamp := now |});
         called := tr |}
  | (Throw message, tr) =>
      {| sent := respond 500 (Failed false ("Transcription failed: " ++ message) "");
         called := tr |}
  end.
Proof.
  unfold configured, wellFormed; intros Hc Hw.
  apply andb_true_iff in Hw as [Hw Hb].
  apply andb_true_iff in Hw as [Hm Ht].
  apply String.eqb_eq in Hm.
  unfold handler; rewrite Hm; simpl.
  unfold attempt.
  apply orb_true_iff in Hc.
  assert (E1 : negb (present (OPENAI_API_KEY e))
               && negb (present (DEEPGRAM_API_KEY e)) = false).
  { destruct Hc as [-> | ->]; [reflexivity | apply andb_false_r]. }
  rewrite E1.
  assert (E2 : negb (includes (valueOf (firstPresent
                                          (firstPresent (header "content-type" (headers ev))
                                                        (header "Content-Type" (headers ev)))
                                          (Some ""))) "multipart/form-data")
               && negb (includes (valueOf (firstPresent
                                             (firstPresent (header "content-type" (headers ev))
                                                           (header "Content-Type" (headers ev)))
                                             (Some ""))) "audio/") = false).
  { apply orb_true_iff in Ht as [-> | ->]; [reflexivity | apply andb_false_r]. }
  rewrite E2, Hb; simpl.
  unfold bind.
  destruct (transcribe e net _ []) as [[t|m] tr]; reflexivity.
Qed.

(** A request that fails a check is answered at once. *)
Lemma handler_not_wellFormed e net decode now ev :
  configured e && wellFormed ev = false ->
  called (handler e net decode now ev) = []
  /\ transcriptOf (responseBody (sent (handler e net decode now ev))) = None.
Proof.
  unfold configured, wellFormed, handler; intros H.
  destruct (String.eqb (httpMethod ev) "OPTIONS"); [split; reflexivity|].
  destruct (String.eqb (httpMethod ev) "POST") eqn:Hm; [|split; reflexivity].
  simpl; unfold attempt.
  destruct (present (OPENAI_API_KEY e)), (present (DEEPGRAM_API_KEY e));
    simpl in *; try (split; reflexivity);
    (destruct (includes _ "multipart/form-data"), (includes _ "audio/");
     simpl in *; try (split; reflexivity);
     destruct (present (body ev)); simpl in *;
     try (split; reflexivity); discriminate).
Qed.

(** X21. A transcription service is called only for a POST whose content
    type mentions [multipart/form-data] or [audio/], whose body is not
    empty, and with at least one API key configured. *)
Theorem services_called_only_when_valid e net decode now ev :
  called (handler e net decode now ev) <> [] ->
  configured e = true /\ wellFormed ev = true.
Proof.
  intros H.
  destruct (configured e && wellFormed ev) eqn:E.
  - now apply andb_true_iff in E.
  - destruct (handler_not_wellFormed e net decode now ev E) as [E' _].
    now elim H.
Qed.

Lemma services_called_only_when_valid_witness :
  configured bothKeys = true /\ wellFormed wavUpload = true.
Proof.
  apply (services_called_only_when_valid bothKeys openaiDown bytesOf
           "2024-01-01T00:00:00.000Z" wavUpload).
  discriminate.
Defined.

(** X22. When OpenAI is configured and fails while the Deepgram fallback
    succeeds, the answer is 200 with Deepgram's transcript, trimmed, and its
    metadata still say [serviceUsed: "openai"]. *)
Theorem fallback_reported_as_openai e net decode now ev message t :
  wellFormed ev = true ->
  present (OPENAI_API_KEY e) = true -> present (DEEPGRAM_API_KEY e) = true ->
  let audioBuffer := decode (isBase64Encoded ev) (valueOf (body ev)) in
  openaiAnswer e net audioBuffer = Throw message ->
  deepgramAnswer e net audioBuffer = Return t ->
  handler e net decode now ev
  = {| sent :=
         respond 200
           (Transcribed true (trim t)
              {| audioSizeBytes := List.length audioBuffer;
                 transcriptLength := String.length (trim t);
                 serviceUsed := "openai";
                 timestamp := now |});
       called := [OpenAI; Deepgram] |}.
Proof.
  intros Hw Ho Hd audioBuffer Hoa Hda; subst audioBuffer.
  rewrite handler_wellFormed by (unfold configured; rewrite ?Ho; auto).
  cbv zeta; rewrite transcribe_run, Ho, Hd, Hoa, Hda; reflexivity.
Qed.

Lemma fallback_reported_as_openai_witness :
  handler bothKeys openaiDown bytesOf "2024-01-01T00:00:00.000Z" wavUpload
  = {| sent :=
         respond 200
           (Transcribed true "hello world"
              {| audioSizeBytes := 4;
                 transcriptLength := 11;
                 serviceUsed := "openai";
                 timestamp := "2024-01-01T00:00:00.000Z" |});
       called := [OpenAI; Deepgram] |}.
Proof.
  apply (fallback_reported_as_openai bothKeys openaiDown bytesOf _ wavUpload
           "OpenAI transcription failed: OpenAI API error: 429 - slow down"
           "hello world"); reflexivity.
Defined.

(** X23. A well-formed request is answered 200 exactly when a configured
    service returns a transcript. *)
Theorem transcribed_iff e net decode now ev :
  configured e = true -> wellFormed ev = true ->
  let audioBuffer := decode (isBase64Encoded ev) (valueOf (body ev)) in
  statusCode (sent (handler e net decode now ev)) = 200%Z
  <-> (present (OPENAI_API_KEY e) && returned (openaiAnswer e net audioBuffer)
       || present (DEEPGRAM_API_KEY e) && returned (deepgramAnswer e net audioBuffer))
      = true.
Proof.
  intros Hc Hw audioBuffer; subst audioBuffer.
  rewrite (handler_wellFormed _ _ _ _ _ Hc Hw); cbv zeta.
  rewrite transcribe_run.
  unfold configured in Hc.
  destruct (present (OPENAI_API_KEY e)), (present (DEEPGRAM_API_KEY e));
    try discriminate;
    destruct (openaiAnswer e net _); simpl;
    try destruct (deepgramAnswer e net _); simpl;
    split; intros H; try reflexivity; try discriminate.
Qed.

Lemma transcribed_iff_witness :
  statusCode (sent (handler bothKeys allDown bytesOf "2024-01-01T00:00:00.000Z"
                      wavUpload)) = 200%Z
  <-> (present (OPENAI_API_KEY bothKeys)
       && returned (openaiAnswer bothKeys allDown (bytesOf false "RIFF"))
       || present (DEEPGRAM_API_KEY bothKeys)
          && returned (deepgramAnswer bothKeys allDown (bytesOf false "RIFF")))
      = true.
Proof.
  apply (transcribed_iff bothKeys allDown bytesOf _ wavUpload); reflexivity.
Defined.

(** X24. Each service is called at most once, OpenAI first; Deepgram is
    called on its own only when no OpenAI key is configured, and after
    OpenAI only when OpenAI failed. *)
Theorem call_discipline e net decode now ev :
  let audioBuffer := decode (isBase64Encoded ev) (valueOf (body ev)) in
  let calls := called (handler e net decode now ev) in
  calls = []
  \/ calls = [OpenAI]
  \/ (calls = [Deepgram] /\ present (OPENAI_API_KEY e) = false)
  \/ (calls = [OpenAI; Deepgram]
      /\ returned (openaiAnswer e net audioBuffer) = false).
Proof.
  intros audioBuffer calls; subst audioBuffer calls.
  destruct (configured e && wellFormed ev) eqn:E.
  - apply andb_true_iff in E as [Hc Hw].
    rewrite (handler_wellFormed _ _ _ _ _ Hc Hw); cbv zeta.
    rewrite transcribe_run.
    destruct (present (OPENAI_API_KEY e)), (present (DEEPGRAM_API_KEY e));
      try destruct (openaiAnswer e net _); simpl;
      try destruct (deepgramAnswer e net _); simpl; auto 6.
  - destruct (handler_not_wellFormed e net decode now ev E) as [-> _]; auto.
Qed.

(** X25. When both services are configured and both fail, the answer is
    500 with the error ["Transcription failed: All transcription services
    failed"]: neither cause is reported. *)
Theorem both_services_fail e net decode now ev m1 m2 :
  wellFormed ev = true ->
  present (OPENAI_API_KEY e) = true -> present (DEEPGRAM_API_KEY e) = true ->
  let audioBuffer := decode (isBase64Encoded ev) (valueOf (body ev)) in
  openaiAnswer e net audioBuffer = Throw m1 ->
  deepgramAnswer e net audioBuffer = Throw m2 ->
  handler e net decode now ev
  = {| sent :=
         respond 500
           (Failed false "Transcription failed: All transcription services failed" "");
       called := [OpenAI; Deepgram] |}.
Proof.
  intros Hw Ho Hd audioBuffer Hoa Hda; subst audioBuffer.
  rewrite handler_wellFormed by (unfold configured; rewrite ?Ho; auto).
  cbv zeta; rewrite transcribe_run, Ho, Hd, Hoa, Hda; reflexivity.
Qed.

Lemma both_services_fail_witness :
  handler bothKeys allDown bytesOf "2024-01-01T00:00:00.000Z" wavUpload
  = {| sent :=
         respond 500
           (Failed false "Transcription failed: All transcription services failed" "");
       called := [OpenAI; Deepgram] |}.
Proof.
  apply (both_services_fail bothKeys allDown bytesOf _ wavUpload
           "OpenAI transcription failed: connect ECONNREFUSED"
           "Deepgram API error: 429 - slow down"); reflexivity.
Defined.

(** X26. The transcript of a 200 response has no white space at either end,
    and the [transcriptLength] reported is its length. *)
Theorem transcript_trimmed e net decode now ev t m :
  responseBody (sent (handler e net decode now ev)) = Transcribed true t m ->
  trim t = t /\ transcriptLength m = String.length t.
Proof.
  destruct (configured e && wellFormed ev) eqn:E.
  - apply andb_true_iff in E as [Hc Hw].
    rewrite (handler_wellFormed _ _ _ _ _ Hc Hw); cbv zeta.
    destruct (transcribe e net _ []) as [[t0|m0] tr]; simpl; [|discriminate].
    intros H; injection H as <- <-; simpl.
    split; [apply HandlerFacts.trim_idempotent | reflexivity].
  - destruct (handler_not_wellFormed e net decode now ev E) as [_ H].
    intros H'; rewrite H' in H; discriminate.
Qed.

Lemma transcript_trimmed_witness :
  trim "hello world" = "hello world" /\ 11%nat = String.length "hello world".
Proof.
  apply (transcript_trimmed bothKeys openaiDown bytesOf "2024-01-01T00:00:00.000Z"
           wavUpload "hello world"
           {| audioSizeBytes := 4; transcriptLength := 11;
              serviceUsed := "openai";
              timestamp := "2024-01-01T00:00:00.000Z" |}).
  reflexivity.
Defined.

End VoiceFacts.

(* ------------------------------------------------------------------ *)
(** * Facts about the save-research handler *)

Module SaveResearchFacts.
Import JsString SaveResearch.

(** The POST paths, by the request and the answers of the store. *)
Lemma save_handler_post db a typeError ev r :
  httpMethod ev = "POST" -> body ev = Body r ->
  handler db a typeError ev =
  if negb (complete r) then
    {| sent := respond 400
                 (Invalid "entityType, entityName, and data are required" false);
       written := [] |}
  else
    let record := researchRecordOf a r in
    match error (upsert db record) with
    | Some saveError =>
        if isMissingTable saveError then
          let fallback :=
            {| fallback_id := record_id record;
               fallback_type := "saved_research";
               fallback_data := record;
               fallback_created_at := clock a 2 |} in
          match error (insertFallback db fallback) with
          | Some _ =>
              {| sent := respond 500
                           (FallbackFailed "Failed to save research data" false true);
                 written := [Upsert record; Fallback fallback] |}
          | None =>
              {| sent := respond 200
                           (FallbackSaved true true fallback
                              "Research saved to fallback storage" true);
                 written := [Upsert record; Fallback fallback] |}
          end
        else
          {| sent := respond 500
                       (DatabaseError ("Database error: " ++ message saveError) false);
             written := [Upsert record] |}
    | None =>
        match row (upsert db record) with
        | None =>
            {| sent := respond 500
                         (Crashed false ("Failed to save research: " ++ typeError) false);
               written := [Upsert record] |}
        | Some savedResearch =>
            {| sent :=
                 respond 200
                   (Saved true true savedResearch
                      {| meta_id := record_id savedResearch;
                         meta_entityType := the (entityType r);
                         meta_entityName := the (entityName r);
                         meta_userId := userIdOf r;
                         meta_savedAt := created_at savedResearch;
                         meta_dataSize := stringifiedLength a (the (data r));
                         meta_sourcesCount := lengthOf (sourcesOf r) |});
               written := [Upsert record] |}
        end
    end.
Proof.
  intros Hm Hb; unfold handler; rewrite Hm; simpl.
  unfold save, bind; rewrite Hb; simpl.
  unfold complete.
  destruct (Search.jsNot (entityType r)); [reflexivity|].
  destruct (Search.jsNot (entityName r)); [reflexivity|].
  destruct (Search.jsNot (data r)); [reflexivity|].
  simpl; unfold perform.
  destruct (error (upsert db (researchRecordOf a r))) as [e|].
  - destruct (isMissingTable e); [|reflexivity].
    destruct (error (insertFallback db _)); reflexivity.
  - destruct (row (upsert db (researchRecordOf a r))); reflexivity.
Qed.

Lemma save_handler_not_post db a typeError ev :
  httpMethod ev <> "POST" ->
  written (handler db a typeError ev) = []
  /\ savedFlag (responseBody (sent (handler db a typeError ev))) = None.
Proof.
  intros H; unfold handler.
  destruct (String.eqb (httpMethod ev) "OPTIONS"); [split; reflexivity|].
  apply String.eqb_neq in H; rewrite H; split; reflexivity.
Qed.

Lemma save_handler_unreadable db a typeError ev :
  httpMethod ev = "POST" -> (forall r, body ev <> Body r) ->
  written (handler db a typeError ev) = []
  /\ savedFlag (responseBody (sent (handler db a typeError ev))) = Some false
  /\ statusCode (sent (handler db a typeError ev)) = 500%Z.
Proof.
  intros Hm Hb; unfold handler; rewrite Hm; simpl.
  unfold save, bind.
  destruct (body ev) as [m|m|r]; simpl; auto.
  now elim (Hb r).
Qed.

(** X27. A POST whose body parses to a JSON value other than [null], and
    whose [entityType], [entityName] or [data] is missing or falsy, is
    answered 400 with [saved: false], and nothing is written to the
    store. *)
Theorem incomplete_request_rejected db a typeError ev r :
  httpMethod ev = "POST" -> body ev = Body r -> complete r = false ->
  handler db a typeError ev
  = {| sent := respond 400
                 (Invalid "entityType, entityName, and data are required" false);
       written := [] |}.
Proof.
  intros Hm Hb Hc; rewrite (save_handler_post _ _ _ _ _ Hm Hb), Hc; reflexivity.
Qed.

Lemma incomplete_request_rejected_witness :
  handler working sampleAmbient "TypeError"
    (post {| id := None; entityType := Some (Search.JString "company");
             entityName := Some (Search.JString ""); data := Some (Search.JObject []);
             confidence := None; sources := None; userId := None |})
  = {| sent := respond 400
                 (Invalid "entityType, entityName, and data are required" false);
       written := [] |}.
Proof.
  eapply incomplete_request_rejected; reflexivity.
Defined.

(** The literal [null] as body cannot be destructured: the catch-all
    answers 500, and nothing is written either. *)
Example null_body_not_saved :
  handler working sampleAmbient "TypeError"
    {| httpMethod := "POST";
       body := NullLiteral "Cannot destructure property 'id' of 'body' as it is null." |}
  = {| sent :=
         respond 500
           (Crashed false
              "Failed to save research: Cannot destructure property 'id' of 'body' as it is null."
              false);
       written := [] |}.
Proof. reflexivity. Qed.

(** X28. Whatever the event and the store, the response says [saved: true]
    exactly when its status is 200 and something was written; and then the
    last write is one the store accepted. *)
Theorem saved_means_written db a typeError ev :
  let out := handler db a typeError ev in
  (savedFlag (responseBody (sent out)) = Some true
   <-> statusCode (sent out) = 200%Z /\ written out <> [])
  /\ (savedFlag (responseBody (sent out)) = Some true ->
      exists before w, written out = (before ++ [w])%list /\ accepted db w = true).
Proof.
  intros out; subst out.
  destruct (String.eqb_spec (httpMethod ev) "POST") as [Hm|Hm].
  2:{ destruct (save_handler_not_post db a typeError ev Hm) as [Hw Hs].
      rewrite Hw, Hs; split; [split|]; try discriminate; intros [_ H]; now elim H. }
  destruct (body ev) as [m|m|r] eqn:Hb.
  1,2: destruct (save_handler_unreadable db a typeError ev Hm) as (Hw & Hs & Hc);
       [rewrite Hb; discriminate|];
       rewrite Hw, Hs, Hc; split; [split|]; try discriminate;
       intros [H _]; discriminate.
  rewrite (save_handler_post _ _ _ _ _ Hm Hb).
  destruct (complete r); simpl.
  2:{ split; [split|]; try discriminate; intros [H _]; discriminate. }
  destruct (error (upsert db (researchRecordOf a r))) as [e|] eqn:Eu.
  - destruct (isMissingTable e).
    + destruct (error (insertFallback db _)) eqn:Ef; simpl.
      * split; [split|]; try discriminate; intros [H _]; discriminate.
      * split; [split; [intros _; split; [reflexivity | discriminate] | reflexivity]|].
        intros _; eexists [_], _; split; [reflexivity|].
        simpl; now rewrite Ef.
    + simpl; split; [split|]; try discriminate; intros [H _]; discriminate.
  - destruct (row (upsert db (researchRecordOf a r))); simpl.
    + split; [split; [intros _; split; [reflexivity | discriminate] | reflexivity]|].
      intros _; exists [], (Upsert (researchRecordOf a r)); split; [reflexivity|].
      simpl; now rewrite Eu.
    + split; [split|]; try discriminate; intros [H _]; discriminate.
Qed.

(** X29. The fallback store is written to exactly when the upsert fails
    with code 42P01 (missing table); any other upsert error is answered 500
    with ["Database error: "] and the store's message, and [saved: false]. *)
Theorem fallback_only_for_missing_table db a typeError ev r :
  httpMethod ev = "POST" -> body ev = Body r -> complete r = true ->
  let out := handler db a typeError ev in
  let reply := upsert db (researchRecordOf a r) in
  ((exists f, In (Fallback f) (written out))
   <-> exists e, error reply = Some e /\ isMissingTable e = true)
  /\ (forall e, error reply = Some e -> isMissingTable e = false ->
                sent out = respond 500
                             (DatabaseError ("Database error: " ++ message e) false)).
Proof.
  intros Hm Hb Hc out reply; subst out reply.
  rewrite (save_handler_post _ _ _ _ _ Hm Hb), Hc; cbv zeta; simpl negb; cbv iota.
  destruct (error (upsert db (researchRecordOf a r))) as [e|] eqn:Eu.
  - destruct (isMissingTable e) eqn:Et.
    + split.
      * split; [intros _; eauto|intros _].
        destruct (error (insertFallback db _)); simpl; eauto.
      * intros e' H; injection H as <-; congruence.
    + split.
      * split.
        -- intros (f & [H|[]]); discriminate.
        -- intros (e' & H & H'); injection H as <-; congruence.
      * intros e' H _; injection H as <-; reflexivity.
  - split.
    + split.
      * intros (f & H).
        destruct (row (upsert db (researchRecordOf a r))); simpl in H;
          destruct H as [H|[]]; discriminate.
      * intros (e' & H & _); discriminate.
    + intros e' H; discriminate.
Qed.

Lemma fallback_only_for_missing_table_witness :
  let out := handler readOnly sampleAmbient "TypeError" (post sampleRequest) in
  sent out = respond 500 (DatabaseError "Database error: permission denied" false)
  /\ written out = [Upsert (researchRecordOf sampleAmbient sampleRequest)].
Proof.
  split; [|reflexivity].
  destruct (fallback_only_for_missing_table readOnly sampleAmbient "TypeError"
              (post sampleRequest) sampleRequest eq_refl eq_refl eq_refl) as [_ H].
  exact (H {| code := Some "42501"; message := "permission denied" |} eq_refl eq_refl).
Defined.

Example fallback_used :
  map (accepted noTable)
    (written (handler noTable sampleAmbient "TypeError" (post sampleRequest)))
  = [false; true].
Proof. reflexivity. Qed.

(** X30. Every record written carries the caller's [id] when it gave a
    truthy one, and the generated id otherwise; the fallback record has the
    id of the research record it wraps. *)
Theorem written_ids db a typeError ev r :
  httpMethod ev = "POST" -> body ev = Body r ->
  Forall (fun w =>
            idOfWrite w = orJson (id r) (Search.JString (generatedId a))
            /\ match w with
               | Upsert _ => True
               | Fallback f => fallback_id f = record_id (fallback_data f)
               end)
         (written (handler db a typeError ev)).
Proof.
  intros Hm Hb; rewrite (save_handler_post _ _ _ _ _ Hm Hb).
  destruct (complete r); simpl; [|constructor].
  destruct (error (upsert db (researchRecordOf a r))) as [e|].
  - destruct (isMissingTable e).
    + destruct (error (insertFallback db _)); simpl; repeat constructor.
    + simpl; repeat constructor.
  - destruct (row (upsert db (researchRecordOf a r))); simpl; repeat constructor.
Qed.

Lemma written_ids_witness :
  Forall (fun w =>
            idOfWrite w = Search.JString "r-42"
            /\ match w with
               | Upsert _ => True
               | Fallback f => fallback_id f = record_id (fallback_data f)
               end)
         (written (handler noTable sampleAmbient "TypeError" (post identifiedRequest))).
Proof.
  exact (written_ids noTable sampleAmbient "TypeError" (post identifiedRequest)
           identifiedRequest eq_refl eq_refl).
Defined.

End SaveResearchFacts.
